(** * CLog: a per-thread, stream-style message logger (src/Log.hpp)

    A shallow embedding of [class CLog] and of the parts of the C and C++
    runtime it calls ([snprintf], [std::string::resize], [std::ofstream],
    [strftime]), followed by the properties of the logger. *)

From Stdlib Require Import ZArith Ascii String.
From stdpp Require Import gmap strings list fin_maps sorting.

Open Scope string_scope.
Open Scope list_scope.
Open Scope Z_scope.

(** ** The runtime the logger is compiled against *)

(** [struct tm], the fields [strftime] reads for ["%F %H:%M:%S"]. *)
Record tm := {
  tm_year : Z;   (* years since 1900 *)
  tm_mon : Z;    (* 0..11 *)
  tm_mday : Z;   (* 1..31 *)
  tm_hour : Z;
  tm_min : Z;
  tm_sec : Z
}.

(** What the source leaves to the platform: the size of [long], the type
    [double] with [std::to_string], the time zone behind [localtime], what
    [printf] does with a conversion other than d, u, x, o, and which paths the
    file system lets a program open for writing. *)
Record Platform := {
  sizeof_long : nat;
  double : Type;
  to_string : double -> string;
  localtime : Z -> tm;
  printf_other : string -> Z -> string;
  fs_can_open : string -> bool
}.

Module LibC.

Definition NUL : ascii := Ascii.zero.

Definition digit_char (d : Z) : ascii :=
  match String.get (Z.to_nat d) "0123456789abcdef" with
  | Some c => c
  | None => "?"%char
  end.

(** Digits of a non-negative number, most significant first. *)
Fixpoint utoa_aux (fuel : nat) (base n : Z) (acc : string) : string :=
  match fuel with
  | O => acc
  | S fuel' =>
      let acc' := String (digit_char (n mod base)) acc in
      if n / base =? 0 then acc' else utoa_aux fuel' base (n / base) acc'
  end.

Definition utoa (base n : Z) : string := utoa_aux 64 base n "".

Section Long.
Variable P : Platform.

Definition long_bits : Z := 8 * Z.of_nat (sizeof_long P).

(** Conversion to [unsigned long] and to [long] (two's complement). *)
Definition to_ulong (z : Z) : Z := z mod 2 ^ long_bits.

Definition to_long (z : Z) : Z :=
  let u := to_ulong z in
  if u <? 2 ^ (long_bits - 1) then u else u - 2 ^ long_bits.

(** The characters [printf] produces for [Format] and one [long]
    argument; the logger only builds ["%l"] followed by one conversion
    character. *)
Definition printf_text (Format : string) (Num : Z) : string :=
  match Format with
  | String "%" (String "l" (String c EmptyString)) =>
      if Ascii.eqb c "d" then
        if Num <? 0 then String "-" (utoa 10 (- Num)) else utoa 10 Num
      else if Ascii.eqb c "u" then utoa 10 (to_ulong Num)
      else if Ascii.eqb c "x" then utoa 16 (to_ulong Num)
      else if Ascii.eqb c "o" then utoa 8 (to_ulong Num)
      else printf_other P Format Num
  | _ => printf_other P Format Num
  end.

(** [snprintf(nullptr, 0, Format, Num)]: the number of characters the
    text has, the terminator not counted. *)
Definition snprintf_size (Format : string) (Num : Z) : nat :=
  String.length (printf_text Format Num).

(** [snprintf(&dst[0], size, Format, Num)]: at most [size - 1]
    characters of the text and then the terminator are stored over the
    start of [dst]. *)
Definition snprintf_write (dst : string) (size : nat) (Format : string) (Num : Z) : string :=
  match size with
  | O => dst
  | S k =>
      let written := substring 0 k (printf_text Format Num) +:+ String NUL "" in
      written +:+ substring (String.length written) (String.length dst - String.length written) dst
  end.
End Long.

(** [std::string::resize(n, c)]. *)
Fixpoint fill (n : nat) (c : ascii) : string :=
  match n with
  | O => ""
  | S n' => String c (fill n' c)
  end.

Definition resize (n : nat) (c : ascii) (s : string) : string :=
  substring 0 n s +:+ fill (n - String.length s) c.

Definition two_digits (n : Z) : string :=
  String (digit_char (n / 10 mod 10)) (String (digit_char (n mod 10)) "").

(** [strftime(Buf, 80, "%F %H:%M:%S", timeinfo)], for a text that fits the
    80 characters of [Buf]. *)
Definition strftime_F_HMS (t : tm) : string :=
  utoa 10 (tm_year t + 1900) +:+ "-" +:+ two_digits (tm_mon t + 1) +:+ "-" +:+ two_digits (tm_mday t)
  +:+ " " +:+ two_digits (tm_hour t) +:+ ":" +:+ two_digits (tm_min t) +:+ ":" +:+ two_digits (tm_sec t).

(** [std::ofstream]: open flag, [failbit], and the texts written. *)
Record ofstream := {
  is_open : bool;
  failbit : bool;
  written : list string
}.

Definition ofstream_new : ofstream :=
  {| is_open := false; failbit := false; written := [] |}.

(** [open]: fails (sets [failbit], throws nothing: the exception mask of a
    fresh stream is empty) when the stream is already open or the file
    cannot be opened; on success the error state is cleared and the file
    is truncated. *)
Definition ofstream_open (can_open : string -> bool) (Filename : string) (f : ofstream) : ofstream :=
  if is_open f then {| is_open := true; failbit := true; written := written f |}
  else if can_open Filename then {| is_open := true; failbit := false; written := [] |}
  else {| is_open := false; failbit := true; written := written f |}.

(** [operator<<] followed by [flush]: nothing is written through a stream
    in a failed state or without a file. *)
Definition ofstream_write (Message : string) (f : ofstream) : ofstream :=
  if failbit f then f
  else if is_open f then {| is_open := true; failbit := false; written := written f ++ [Message] |}
  else {| is_open := false; failbit := true; written := written f |}.

(** [close]: closing a stream that has no file sets [failbit]. *)
Definition ofstream_close (f : ofstream) : ofstream :=
  if is_open f then {| is_open := false; failbit := failbit f; written := written f |}
  else {| is_open := false; failbit := true; written := written f |}.

End LibC.

(** ** The logger *)

(** [std::thread::id]: an opaque, totally ordered token. *)
Abbreviation thread_id := nat (only parsing).

(** Conversion to [uint32_t]. *)
Definition to_uint32 (z : Z) : Z := z mod 2 ^ 32.

(** [struct Buffer], the message a thread is composing. *)
Record Buffer := {
  Time : Z;
  Tag : string;
  Message : string;
  Level : Z;
  DebugMsg : bool;
  ShowTime : bool
}.

(** [Buffer::Buffer()]; [now] is what [time(nullptr)] returns. *)
Definition Buffer_new (now : Z) : Buffer :=
  {| Time := now; Tag := ""; Message := ""; Level := 0; DebugMsg := false; ShowTime := true |}.

Definition set_Tag (v : string) (b : Buffer) : Buffer :=
  {| Time := Time b; Tag := v; Message := Message b; Level := Level b;
     DebugMsg := DebugMsg b; ShowTime := ShowTime b |}.

Definition set_Message (v : string) (b : Buffer) : Buffer :=
  {| Time := Time b; Tag := Tag b; Message := v; Level := Level b;
     DebugMsg := DebugMsg b; ShowTime := ShowTime b |}.

Definition set_Level (v : Z) (b : Buffer) : Buffer :=
  {| Time := Time b; Tag := Tag b; Message := Message b; Level := v;
     DebugMsg := DebugMsg b; ShowTime := ShowTime b |}.

Definition set_DebugMsg (v : bool) (b : Buffer) : Buffer :=
  {| Time := Time b; Tag := Tag b; Message := Message b; Level := Level b;
     DebugMsg := v; ShowTime := ShowTime b |}.

Definition set_ShowTime (v : bool) (b : Buffer) : Buffer :=
  {| Time := Time b; Tag := Tag b; Message := Message b; Level := Level b;
     DebugMsg := DebugMsg b; ShowTime := v |}.

(** [Message += text]. *)
Definition append_Message (text : string) (b : Buffer) : Buffer :=
  set_Message (Message b +:+ text) b.

(** What a file sink may throw from [OpenFile]. *)
Inductive exception := open_failure (Filename : string).

(** [class IFileOut]. [OpenFile] is the one method documented to throw. *)
Class IFileOut (F : Type) := {
  OpenFile : string -> F -> F * option exception;
  WriteToFile : string -> F -> F;
  CloseFile : F -> F
}.

(** [class DefaultFileOut], a wrapper of one [std::ofstream]. *)
Record DefaultFileOut := { m_Output : LibC.ofstream }.

#[export] Instance DefaultFileOut_IFileOut (P : Platform) : IFileOut DefaultFileOut := {
  OpenFile Filename f :=
    ({| m_Output := LibC.ofstream_open (fs_can_open P) Filename (m_Output f) |}, None);
  WriteToFile Message f :=
    {| m_Output := LibC.ofstream_write Message (m_Output f) |};
  CloseFile f :=
    if LibC.is_open (m_Output f)
    then {| m_Output := LibC.ofstream_close (m_Output f) |}
    else f
}.

(** The members of [class CLog]. [m_LogLock] is left to [Locking] below; of
    the output callback [m_Output] the logger state keeps the messages it has
    been called with, oldest first ([ConsoleOut], the default, sends each to
    [std::cout] and flushes). *)
Record CLog (F : Type) := {
  output : list string;
  m_FormatMessage : Buffer -> string;
  m_OutFile : F;
  m_LogToFile : bool;
  m_LogDebug : bool;
  m_Buffers : gmap nat Buffer;
  m_Format : ascii;
  m_Level : Z
}.

Arguments output {F} _.
Arguments m_FormatMessage {F} _ _.
Arguments m_OutFile {F} _.
Arguments m_LogToFile {F} _.
Arguments m_LogDebug {F} _.
Arguments m_Buffers {F} _.
Arguments m_Format {F} _.
Arguments m_Level {F} _.

Section Setters.
Context {F : Type}.

Definition set_output (v : list string) (s : CLog F) : CLog F :=
  {| output := v; m_FormatMessage := m_FormatMessage s; m_OutFile := m_OutFile s;
     m_LogToFile := m_LogToFile s; m_LogDebug := m_LogDebug s; m_Buffers := m_Buffers s;
     m_Format := m_Format s; m_Level := m_Level s |}.

Definition set_FormatMessage (v : Buffer -> string) (s : CLog F) : CLog F :=
  {| output := output s; m_FormatMessage := v; m_OutFile := m_OutFile s;
     m_LogToFile := m_LogToFile s; m_LogDebug := m_LogDebug s; m_Buffers := m_Buffers s;
     m_Format := m_Format s; m_Level := m_Level s |}.

Definition set_OutFile (v : F) (s : CLog F) : CLog F :=
  {| output := output s; m_FormatMessage := m_FormatMessage s; m_OutFile := v;
     m_LogToFile := m_LogToFile s; m_LogDebug := m_LogDebug s; m_Buffers := m_Buffers s;
     m_Format := m_Format s; m_Level := m_Level s |}.

Definition set_LogToFile (v : bool) (s : CLog F) : CLog F :=
  {| output := output s; m_FormatMessage := m_FormatMessage s; m_OutFile := m_OutFile s;
     m_LogToFile := v; m_LogDebug := m_LogDebug s; m_Buffers := m_Buffers s;
     m_Format := m_Format s; m_Level := m_Level s |}.

Definition set_LogDebug (v : bool) (s : CLog F) : CLog F :=
  {| output := output s; m_FormatMessage := m_FormatMessage s; m_OutFile := m_OutFile s;
     m_LogToFile := m_LogToFile s; m_LogDebug := v; m_Buffers := m_Buffers s;
     m_Format := m_Format s; m_Level := m_Level s |}.

Definition set_Buffers (v : gmap nat Buffer) (s : CLog F) : CLog F :=
  {| output := output s; m_FormatMessage := m_FormatMessage s; m_OutFile := m_OutFile s;
     m_LogToFile := m_LogToFile s; m_LogDebug := m_LogDebug s; m_Buffers := v;
     m_Format := m_Format s; m_Level := m_Level s |}.

Definition set_Format (v : ascii) (s : CLog F) : CLog F :=
  {| output := output s; m_FormatMessage := m_FormatMessage s; m_OutFile := m_OutFile s;
     m_LogToFile := m_LogToFile s; m_LogDebug := m_LogDebug s; m_Buffers := m_Buffers s;
     m_Format := v; m_Level := m_Level s |}.

Definition set_m_Level (v : Z) (s : CLog F) : CLog F :=
  {| output := output s; m_FormatMessage := m_FormatMessage s; m_OutFile := m_OutFile s;
     m_LogToFile := m_LogToFile s; m_LogDebug := m_LogDebug s; m_Buffers := m_Buffers s;
     m_Format := m_Format s; m_Level := v |}.
End Setters.

(** [std::map::operator[]]: the buffer of [tid], default-constructed and
    inserted when the thread has none. *)
Definition subscript (now : Z) (tid : thread_id) (m : gmap nat Buffer) : Buffer * gmap nat Buffer :=
  match m !! tid with
  | Some b => (b, m)
  | None => (Buffer_new now, <[tid := Buffer_new now]> m)
  end.

(** [m_Buffers[tid].member = ...]. *)
Definition modify (now : Z) (tid : thread_id) (f : Buffer -> Buffer) (m : gmap nat Buffer) : gmap nat Buffer :=
  let '(b, m') := subscript now tid m in <[tid := f b]> m'.

(** The order in which an iterator walks a [std::map]: ascending keys. *)
Definition key_le (x y : nat * Buffer) : Prop := (x.1 <= y.1)%nat.

#[export] Instance key_le_dec : RelDecision key_le.
Proof. intros x y. unfold key_le. apply _. Defined.

Definition entries (m : gmap nat Buffer) : list (nat * Buffer) :=
  merge_sort key_le (map_to_list m).

(** Every level in the map is a [uint32_t]. *)
Definition levels_in_range (m : gmap nat Buffer) : Prop :=
  map_Forall (fun (_ : nat) (b : Buffer) => 0 <= Level b < 2 ^ 32) m.

(** The text thread [tid] has composed so far. *)
Definition message_of (tid : thread_id) (m : gmap nat Buffer) : string :=
  match m !! tid with
  | Some b => Message b
  | None => ""
  end.

(** ** The methods of [CLog] *)

Section Methods.
Variable P : Platform.
Context {F : Type} {IFO : IFileOut F}.

(** The loop of the binary branch of [FormatIntegral]:
    [for (char i = sizeof(long); i--;)], entered with the counter at [i]. *)
Fixpoint binary_loop (i : nat) (Num : Z) (FirstOneFound : bool) (Ret : string) : string :=
  match i with
  | O => Ret
  | S i' =>
      let bit := negb (Z.land Num (Z.shiftl 1 (Z.of_nat i')) =? 0) in
      let FirstOneFound := if negb FirstOneFound && bit then true else FirstOneFound in
      let Ret := if FirstOneFound then Ret +:+ (if bit then "1" else "0") else Ret in
      binary_loop i' Num FirstOneFound Ret
  end.

(** [FormatIntegral(long Num, std::string Unsigned)]; the member [m_Format]
    it reads comes first. *)
Definition FormatIntegral (m_Format : ascii) (Num : Z) (Unsigned : string) : string :=
  let Ret := "" in
  if negb (Ascii.eqb m_Format "b") then
    let Format := "%l" in
    let Format :=
      if Ascii.eqb m_Format "d" then Format +:+ Unsigned else Format +:+ String m_Format "" in
    let Size := LibC.snprintf_size P Format Num in
    let Ret := LibC.resize (Size + 1) LibC.NUL Ret in
    LibC.snprintf_write P Ret (Size + 1) Format Num
  else
    let Ret := binary_loop (sizeof_long P) Num false Ret in
    if String.eqb Ret "" then "0" else Ret.

(** [FormatIntegral(unsigned long Num)] and [FormatIntegral(long Num)]. *)
Definition FormatIntegral_unsigned (m_Format : ascii) (Num : Z) : string :=
  FormatIntegral m_Format (LibC.to_long P Num) "u".

Definition FormatIntegral_signed (m_Format : ascii) (Num : Z) : string :=
  FormatIntegral m_Format Num "d".

(** The loop [for (uint32_t i = 0; i < buf.Level; i++) Ret += ' ';] with
    [n] rounds to go. *)
Fixpoint indent_loop (n : nat) (Ret : string) : string :=
  match n with
  | O => Ret
  | S n' => indent_loop n' (Ret +:+ " ")
  end.

(** [FormatMessage], the default renderer. *)
Definition FormatMessage (buf : Buffer) : string :=
  let Ret := "" in
  let Ret := indent_loop (Z.to_nat (Level buf)) Ret in
  let Ret :=
    if ShowTime buf
    then Ret +:+ ("[ " +:+ LibC.strftime_F_HMS (localtime P (Time buf)) +:+ " ] ")
    else Ret in
  let Ret :=
    if negb (String.eqb (Tag buf) "")
    then Ret +:+ ("[ " +:+ Tag buf +:+ " ] ")
    else Ret in
  Ret +:+ Message buf.

(** What [operator<<] accepts: a signed or unsigned integral value, a
    floating point value, a [bool], a [std::string] or [const char *]. *)
Inductive Value :=
| VSigned (val : Z)
| VUnsigned (val : Z)
| VFloat (val : double P)
| VBool (val : bool)
| VString (val : string).

(** The text [operator<<] appends for [val]. *)
Definition inserted_text (m_Format : ascii) (v : Value) : string :=
  match v with
  | VSigned val => FormatIntegral_signed m_Format (LibC.to_long P val)
  | VUnsigned val => FormatIntegral_unsigned m_Format (LibC.to_ulong P val)
  | VFloat val => to_string P val
  | VBool val => if val then "true" else "false"
  | VString val => val
  end.

(** [operator<<(val)], called by thread [tid] at time [now]. *)
Definition shl (tid : thread_id) (now : Z) (v : Value) (s : CLog F) : CLog F :=
  set_Buffers (modify now tid (append_Message (inserted_text (m_Format s) v)) (m_Buffers s)) s.

Definition Put (tid : thread_id) (now : Z) (c : ascii) (s : CLog F) : CLog F :=
  set_Buffers (modify now tid (append_Message (String c "")) (m_Buffers s)) s.

Definition SetTag (tid : thread_id) (now : Z) (Tag : string) (s : CLog F) : CLog F :=
  let s := set_Buffers (modify now tid (set_Tag Tag) (m_Buffers s)) s in
  set_Buffers (modify now tid (set_DebugMsg (String.eqb Tag "debug")) (m_Buffers s)) s.

Definition SetLogLevel (tid : thread_id) (now : Z) (Level : Z) (s : CLog F) : CLog F :=
  set_Buffers (modify now tid (set_Level (to_uint32 Level)) (m_Buffers s)) s.

Definition ShowTimestamp (tid : thread_id) (now : Z) (Show : bool) (s : CLog F) : CLog F :=
  set_Buffers (modify now tid (set_ShowTime Show) (m_Buffers s)) s.

Definition ShowLogLevel (Level : Z) (s : CLog F) : CLog F :=
  set_m_Level (to_uint32 Level) s.

Definition EnableDebugLog (State : bool) (s : CLog F) : CLog F :=
  set_LogDebug State s.

Definition SetNumFormat (format : ascii) (s : CLog F) : CLog F :=
  set_Format format s.

Definition SetFormatCallback (FormatMessage : Buffer -> string) (s : CLog F) : CLog F :=
  set_FormatMessage FormatMessage s.

Definition SetFileOutCallback (FileOut : F) (s : CLog F) : CLog F :=
  set_OutFile FileOut s.

(** The condition of the [if] in [Flush] and [FlushAll]. *)
Definition passes_filter (s : CLog F) (buf : Buffer) : bool :=
  (m_LogDebug s || (negb (m_LogDebug s) && negb (DebugMsg buf))) && (Level buf <=? m_Level s).

(** The body of that [if]: render, call the output callback, write to the
    file when file logging is on. *)
Definition emit (buf : Buffer) (s : CLog F) : CLog F :=
  let Message := m_FormatMessage s buf in
  let s := set_output (output s ++ [Message]) s in
  if m_LogToFile s then set_OutFile (WriteToFile Message (m_OutFile s)) s else s.

Definition Flush (tid : thread_id) (now : Z) (s : CLog F) : CLog F :=
  let '(buf, bufs) := subscript now tid (m_Buffers s) in
  let s := set_Buffers bufs s in
  let s := if passes_filter s buf then emit buf s else s in
  set_Buffers (delete tid (m_Buffers s)) s.

(** One round of the [while] loop of [FlushAll], the iterator at [it]. *)
Definition FlushAll_round (s : CLog F) (it : nat * Buffer) : CLog F :=
  let s := if passes_filter s it.2 then emit it.2 s else s in
  set_Buffers (delete it.1 (m_Buffers s)) s.

Definition FlushAll (s : CLog F) : CLog F :=
  foldl FlushAll_round s (entries (m_Buffers s)).

Definition CloseLogFile (s : CLog F) : CLog F :=
  let s := set_LogToFile false s in
  set_OutFile (CloseFile (m_OutFile s)) s.

(** [LogToFile]: the logger afterwards, and the exception that leaves the
    method when [OpenFile] throws. *)
Definition LogToFile (Filename : string) (s : CLog F) : CLog F * option exception :=
  let s := CloseLogFile s in
  let '(f, thrown) := OpenFile Filename (m_OutFile s) in
  let s := set_OutFile f s in
  match thrown with
  | Some e => (s, Some e)
  | None => (set_LogToFile true s, None)
  end.

(** [~CLog]. *)
Definition destroy (s : CLog F) : CLog F := CloseLogFile (FlushAll s).

(** The stream manipulators of the header. *)
Definition lendl (tid : thread_id) (now : Z) (s : CLog F) : CLog F :=
  Flush tid now (Put tid now "010"%char s).

Definition lhex : CLog F -> CLog F := SetNumFormat "x".
Definition ldec : CLog F -> CLog F := SetNumFormat "d".
Definition lbin : CLog F -> CLog F := SetNumFormat "b".
Definition loct : CLog F -> CLog F := SetNumFormat "o".
Definition lerror (tid : thread_id) (now : Z) : CLog F -> CLog F := SetTag tid now "error".
Definition lwarning (tid : thread_id) (now : Z) : CLog F -> CLog F := SetTag tid now "warning".
Definition linfo (tid : thread_id) (now : Z) : CLog F -> CLog F := SetTag tid now "info".
Definition ldebug (tid : thread_id) (now : Z) : CLog F -> CLog F := SetTag tid now "debug".
Definition ltag (tid : thread_id) (now : Z) (Tag : string) : CLog F -> CLog F := SetTag tid now Tag.
Definition llevel (tid : thread_id) (now : Z) (Level : Z) : CLog F -> CLog F := SetLogLevel tid now Level.

End Methods.

(** [CLog::CLog()]. *)
Definition CLog_new (P : Platform) : CLog DefaultFileOut :=
  {| output := [];
     m_FormatMessage := FormatMessage P;
     m_OutFile := {| m_Output := LibC.ofstream_new |};
     m_LogToFile := false;
     m_LogDebug := false;
     m_Buffers := ∅;
     m_Format := "d"%char;
     m_Level := to_uint32 (-1) |}.

(** What the output callback receives when thread [tid] of a new logger
    hides the time, sets the number format, appends [v] and flushes:
    [llog.ShowTimestamp(false); llog.SetNumFormat(fmt); llog << v; llog.Flush();] *)
Definition append_and_flush (P : Platform) (fmt : ascii) (v : Value P) (tid : thread_id) (now : Z) : list string :=
  let IFO := DefaultFileOut_IFileOut P in
  output (Flush tid now (shl P tid now v (SetNumFormat fmt (ShowTimestamp tid now false (CLog_new P))))).

(** The first statement of [main] (src/main.cpp), after its three settings. *)
Definition main_first_message (P : Platform) (tid : thread_id) (now : Z) : CLog DefaultFileOut :=
  let IFO := DefaultFileOut_IFileOut P in
  let llog := CLog_new P in
  let llog := (LogToFile "Test.log" llog).1 in
  let llog := EnableDebugLog true llog in
  let llog := ShowLogLevel 5 llog in
  let llog := llevel tid now 5 llog in
  let llog := ldebug tid now llog in
  let llog := shl P tid now (VString P "Test ") llog in
  let llog := lbin llog in
  let llog := shl P tid now (VUnsigned P 15) llog in
  let llog := shl P tid now (VString P " Test ") llog in
  let llog := shl P tid now (VBool P true) llog in
  let llog := lhex llog in
  let llog := shl P tid now (VSigned P 255) llog in
  lendl tid now llog.

(** ** A concrete platform: LP64, UTC *)

Module LP64.

(** Days since 1970-01-01 to year, month, day of the Gregorian calendar. *)
Definition civil_from_days (days : Z) : Z * Z * Z :=
  let z := days + 719468 in
  let era := z / 146097 in
  let doe := z - era * 146097 in
  let yoe := (doe - doe / 1460 + doe / 36524 - doe / 146096) / 365 in
  let doy := doe - (365 * yoe + yoe / 4 - yoe / 100) in
  let mp := (5 * doy + 2) / 153 in
  let d := doy - (153 * mp + 2) / 5 + 1 in
  let m := if mp <? 10 then mp + 3 else mp - 9 in
  let y := yoe + era * 400 in
  (if m <=? 2 then y + 1 else y, m, d).

Definition gmtime (t : Z) : tm :=
  let '(y, m, d) := civil_from_days (t / 86400) in
  let secs := t mod 86400 in
  {| tm_year := y - 1900; tm_mon := m - 1; tm_mday := d;
     tm_hour := secs / 3600; tm_min := secs / 60 mod 60; tm_sec := secs mod 60 |}.

(** [std::to_string(double)] is [printf] with ["%f"]; here for the doubles
    that hold an integer of magnitude below 2^53, given by that integer. *)
Definition to_string_integral (z : Z) : string :=
  (if z <? 0 then "-" else "") +:+ LibC.utoa 10 (Z.abs z) +:+ ".000000".

(** A file system in which nothing opens under [/nonexistent/], and the
    empty path never opens. *)
Definition can_open (path : string) : bool :=
  negb (String.eqb path "") && negb (String.prefix "/nonexistent/" path).

Definition platform : Platform :=
  {| sizeof_long := 8;
     double := Z;
     to_string := to_string_integral;
     localtime := gmtime;
     printf_other := fun Format _ => Format;
     fs_can_open := can_open |}.

End LP64.

(** ** Calls in sequence *)

Section Calls.
Variable P : Platform.
Context {F : Type} {IFO : IFileOut F}.

(** A call of a public method of the logger. *)
Inductive Call :=
| call_shl (v : Value P)
| call_Put (c : ascii)
| call_SetTag (Tag : string)
| call_SetLogLevel (Level : Z)
| call_ShowTimestamp (Show : bool)
| call_ShowLogLevel (Level : Z)
| call_EnableDebugLog (State : bool)
| call_SetNumFormat (format : ascii)
| call_SetFormatCallback (FormatMessage : Buffer -> string)
| call_Flush
| call_FlushAll
| call_CloseLogFile
| call_LogToFile (Filename : string).

(** The call [c] made by thread [tid] at time [now]; a caller of
    [LogToFile] goes on after the exception, if there is one. *)
Definition step (s : CLog F) (ev : thread_id * Z * Call) : CLog F :=
  let '(tid, now, c) := ev in
  match c with
  | call_shl v => shl P tid now v s
  | call_Put c => Put tid now c s
  | call_SetTag Tag => SetTag tid now Tag s
  | call_SetLogLevel Level => SetLogLevel tid now Level s
  | call_ShowTimestamp Show => ShowTimestamp tid now Show s
  | call_ShowLogLevel Level => ShowLogLevel Level s
  | call_EnableDebugLog State => EnableDebugLog State s
  | call_SetNumFormat format => SetNumFormat format s
  | call_SetFormatCallback f => SetFormatCallback f s
  | call_Flush => Flush tid now s
  | call_FlushAll => FlushAll s
  | call_CloseLogFile => CloseLogFile s
  | call_LogToFile Filename => (LogToFile Filename s).1
  end.

Definition run (evs : list (thread_id * Z * Call)) (s : CLog F) : CLog F :=
  foldl step s evs.

(** The calls with which a thread composes a message: appends and the
    setters of its buffer and of the number format. *)
Definition composing (c : Call) : bool :=
  match c with
  | call_shl _ | call_Put _ | call_SetTag _ | call_SetLogLevel _
  | call_ShowTimestamp _ | call_SetNumFormat _ => true
  | _ => false
  end.

Definition is_ShowLogLevel (c : Call) : bool :=
  match c with
  | call_ShowLogLevel _ => true
  | _ => false
  end.

(** The calls of one thread, to be made at the given times. *)
Definition by_thread (tid : thread_id) (cs : list (Z * Call)) : list (thread_id * Z * Call) :=
  (fun nc : Z * Call => (tid, nc.1, nc.2)) <$> cs.

(** The texts the appends among [cs] insert, in order, with the number
    format in force at each append; [fmt] is the format at the start. *)
Fixpoint composed_text (fmt : ascii) (cs : list (Z * Call)) : string :=
  match cs with
  | [] => ""
  | (_, call_shl v) :: cs' => inserted_text P fmt v +:+ composed_text fmt cs'
  | (_, call_Put c) :: cs' => String c "" +:+ composed_text fmt cs'
  | (_, call_SetNumFormat fmt') :: cs' => composed_text fmt' cs'
  | _ :: cs' => composed_text fmt cs'
  end.

End Calls.

(** ** The behaviour the specification words *)

Module Spec.

(** The filter law: a debug buffer is rendered iff debug is enabled and its
    level is at most the maximum visible level, any other buffer iff its
    level is at most the maximum visible level. *)
Definition rendered (debugEnabled : bool) (maxVisibleLevel : Z) (buf : Buffer) : bool :=
  if DebugMsg buf
  then debugEnabled && (Level buf <=? maxVisibleLevel)
  else Level buf <=? maxVisibleLevel.

(** The messages a pass of [FlushAll] over [l] hands to the sinks, by the
    filter law. *)
Definition passing {F : Type} (s : CLog F) (l : list (nat * Buffer)) : list string :=
  m_FormatMessage s <$> List.filter (rendered (m_LogDebug s) (m_Level s)) l.*2.

(** The formatted text of an integer: decimal as signed or unsigned decimal
    text; hexadecimal and octal as the digits of the two's-complement
    pattern, lowercase, no prefix; binary as the bits of that pattern from
    the most significant set bit on, zero as ["0"]. *)
Definition integral_text (P : Platform) (fmt : ascii) (is_signed : bool) (Num : Z) : string :=
  if Ascii.eqb fmt "d" then
    if is_signed && (Num <? 0) then String "-" (LibC.utoa 10 (- Num))
    else LibC.utoa 10 (LibC.to_ulong P Num)
  else if Ascii.eqb fmt "x" then LibC.utoa 16 (LibC.to_ulong P Num)
  else if Ascii.eqb fmt "o" then LibC.utoa 8 (LibC.to_ulong P Num)
  else LibC.utoa 2 (LibC.to_ulong P Num).

(** The formatted text of an appended value. *)
Definition formatted_text (P : Platform) (fmt : ascii) (v : Value P) : string :=
  match v with
  | VSigned _ val => integral_text P fmt true (LibC.to_long P val)
  | VUnsigned _ val => integral_text P fmt false (LibC.to_ulong P val)
  | VFloat _ val => to_string P val
  | VBool _ val => if val then "true" else "false"
  | VString _ val => val
  end.

(** The default renderer's line: [level] spaces, the bracketed time if
    shown, the bracketed tag if there is one, the text. *)
Definition rendered_line (P : Platform) (buf : Buffer) : string :=
  LibC.fill (Z.to_nat (Level buf)) " "
  +:+ (if ShowTime buf then "[ " +:+ LibC.strftime_F_HMS (localtime P (Time buf)) +:+ " ] " else "")
  +:+ (if String.eqb (Tag buf) "" then "" else "[ " +:+ Tag buf +:+ " ] ")
  +:+ Message buf.

(** A calendar time with a four-digit year. *)
Definition tm_valid (t : tm) : Prop :=
  1000 <= tm_year t + 1900 <= 9999 /\ 0 <= tm_mon t <= 11 /\ 1 <= tm_mday t <= 31
  /\ 0 <= tm_hour t <= 23 /\ 0 <= tm_min t <= 59 /\ 0 <= tm_sec t <= 60.

Definition is_digit (c : ascii) : bool :=
  (48 <=? N_of_ascii c)%N && (N_of_ascii c <=? 57)%N.

(** [s] has the form [pat], in which a 9 stands for any digit. *)
Fixpoint has_form (pat s : string) : bool :=
  match pat, s with
  | EmptyString, EmptyString => true
  | String p pat', String c s' =>
      (if Ascii.eqb p "9" then is_digit c else Ascii.eqb p c) && has_form pat' s'
  | _, _ => false
  end.

(** The form YYYY-MM-DD HH:MM:SS. *)
Definition timestamp_form (s : string) : bool := has_form "9999-99-99 99:99:99" s.

End Spec.

(** ** The lock discipline *)

Module Locking.

(** The members of [CLog] a method touches. *)
Inductive Member :=
| mOutput | mFormatMessage | mOutFile | mLogToFile | mLogDebug | mBuffers | mFormat | mLevel.

(** What a method does with the logger, in program order:
    [std::lock_guard<std::mutex> lock(m_LogLock)] and its release at the end
    of the scope, reads and writes of members. *)
Inductive Action :=
| acquire
| release
| rd (m : Member)
| wr (m : Member).

Inductive Method :=
| LogToFile | CloseLogFile | shl_signed | shl_unsigned | shl_floating | shl_bool | shl_string
| Flush | FlushAll | Put | SetTag | SetLogLevel | ShowTimestamp | ShowLogLevel
| EnableDebugLog | SetNumFormat | SetOutputCallback | SetFormatCallback
| SetFileOutCallback | destructor.

Definition all_methods : list Method :=
  [LogToFile; CloseLogFile; shl_signed; shl_unsigned; shl_floating; shl_bool; shl_string;
   Flush; FlushAll; Put; SetTag; SetLogLevel; ShowTimestamp; ShowLogLevel;
   EnableDebugLog; SetNumFormat; SetOutputCallback; SetFormatCallback;
   SetFileOutCallback; destructor].

(** What [Flush] and [FlushAll] do with a buffer: test the filter, render,
    call the output callback, write to the file. *)
Definition flush_actions : list Action :=
  [rd mLogDebug; rd mLevel; rd mFormatMessage; rd mOutput; rd mLogToFile; rd mOutFile].

Definition CloseLogFile_actions : list Action :=
  [acquire; wr mLogToFile; rd mOutFile; release].

Definition FlushAll_actions : list Action :=
  [acquire; rd mBuffers] ++ flush_actions ++ [wr mBuffers; release].

(** The actions of a method as the source writes them. *)
Definition actions (m : Method) : list Action :=
  match m with
  | CloseLogFile => CloseLogFile_actions
  | LogToFile => CloseLogFile_actions ++ [acquire; rd mOutFile; wr mLogToFile; release]
  | shl_signed | shl_unsigned => [acquire; rd mFormat; wr mBuffers; release]
  | shl_floating | shl_bool | shl_string | Put => [acquire; wr mBuffers; release]
  | Flush => [acquire; wr mBuffers] ++ flush_actions ++ [wr mBuffers; release]
  | FlushAll => FlushAll_actions
  | SetTag => [acquire; wr mBuffers; wr mBuffers; release]
  | SetLogLevel | ShowTimestamp => [acquire; wr mBuffers; release]
  | ShowLogLevel => [wr mLevel]
  | EnableDebugLog => [acquire; wr mLogDebug; release]
  | SetNumFormat => [wr mFormat]
  | SetOutputCallback => [wr mOutput]
  | SetFormatCallback => [wr mFormatMessage]
  | SetFileOutCallback => [wr mOutFile]
  | destructor => FlushAll_actions ++ CloseLogFile_actions
  end.

(** A method keeps the discipline when each access of a member happens with
    the lock held, the lock is not taken twice, and is released at the end. *)
Fixpoint guarded (held : bool) (l : list Action) : bool :=
  match l with
  | [] => negb held
  | acquire :: l' => negb held && guarded true l'
  | release :: l' => held && guarded false l'
  | rd _ :: l' | wr _ :: l' => held && guarded held l'
  end.

Definition locks (m : Method) : bool := guarded false (actions m).

Definition is_access (a : Action) : bool :=
  match a with
  | rd _ | wr _ => true
  | _ => false
  end.

(** Two threads, [false] and [true], share the logger. One move of thread
    [t], its next action being [act], while [owner] holds [m_LogLock]: the
    holder afterwards, or nothing when the thread cannot move (the mutex is
    taken, or is not the thread's to release). *)
Definition move (t : bool) (act : Action) (owner : option bool) : option (option bool) :=
  match act with
  | acquire => match owner with None => Some (Some t) | Some _ => None end
  | release => match owner with
               | Some o => if Bool.eqb o t then Some None else None
               | None => None
               end
  | rd _ | wr _ => Some owner
  end.

(** The run in which the threads move in the order [sched], thread [false]
    with [a] and thread [true] with [b] left to do: each move with the holder
    of the lock at that moment. *)
Fixpoint interleave (sched : list bool) (owner : option bool) (a b : list Action) : option (list (bool * Action * option bool)) :=
  match sched with
  | [] => Some []
  | t :: sched' =>
      match (if t then b else a) with
      | [] => None
      | act :: rest =>
          match move t act owner with
          | None => None
          | Some owner' =>
              option_map (cons (t, act, owner))
                (interleave sched' owner' (if t then a else rest) (if t then rest else b))
          end
      end
  end.

(** A thread touches a member while the other thread holds the lock. *)
Definition intrudes (ev : bool * Action * option bool) : bool :=
  is_access ev.1.2 &&
  match ev.2 with
  | Some o => Bool.eqb o (negb ev.1.1)
  | None => false
  end.

End Locking.

(** ** Many threads *)

Section Threads.
Variable P : Platform.

(** The calls after which thread [tid] still has the buffer it had: all but
    its own [Flush] and anybody's [FlushAll]. *)
Definition keeps (tid : thread_id) (ev : thread_id * Z * Call P) : bool :=
  match ev.2 with
  | call_FlushAll _ => false
  | call_Flush _ => negb (Nat.eqb ev.1.1 tid)
  | _ => true
  end.

(** The calls that hold [m_LogLock] from their first access of a member to
    their last, and so happen one after the other whatever the threads do:
    not [SetNumFormat], [ShowLogLevel] and [SetFormatCallback], which take no
    lock, and not [LogToFile], which gives the lock up between closing the
    old file and opening the new one. *)
Definition one_critical_section (c : Call P) : bool :=
  match c with
  | call_SetNumFormat _ _ | call_ShowLogLevel _ _ | call_SetFormatCallback _ _
  | call_LogToFile _ _ => false
  | _ => true
  end.

(** The calls that reach for the buffer of the calling thread through
    [operator[]]. *)
Definition touches_buffer (c : Call P) : bool :=
  match c with
  | call_shl _ _ | call_Put _ _ | call_SetTag _ _ | call_SetLogLevel _ _ | call_ShowTimestamp _ _ => true
  | _ => false
  end.

Definition is_FlushAll (c : Call P) : bool :=
  match c with
  | call_FlushAll _ => true
  | _ => false
  end.

(** The texts the appends of thread [tid] among the calls [evs] of all
    threads insert, in order, each with the number format in force at the
    append, whichever thread set it. *)
Fixpoint thread_text (tid : thread_id) (fmt : ascii) (evs : list (thread_id * Z * Call P)) : string :=
  match evs with
  | [] => ""
  | (t, _, call_shl _ v) :: evs' =>
      (if Nat.eqb t tid then inserted_text P fmt v else "") +:+ thread_text tid fmt evs'
  | (t, _, call_Put _ c) :: evs' =>
      (if Nat.eqb t tid then String c "" else "") +:+ thread_text tid fmt evs'
  | (_, _, call_SetNumFormat _ fmt') :: evs' => thread_text tid fmt' evs'
  | _ :: evs' => thread_text tid fmt evs'
  end.

End Threads.

(** The number a text of binary digits stands for, read from the left on
    top of [acc]; a text with any character other than 0 and 1 stands for
    none. *)
Fixpoint bin_value (acc : Z) (s : string) : option Z :=
  match s with
  | EmptyString => Some acc
  | String c s' =>
      if Ascii.eqb c "1" then bin_value (2 * acc + 1) s'
      else if Ascii.eqb c "0" then bin_value (2 * acc) s'
      else None
  end.

(** A file sink of a user of [SetFileOutCallback]: the default one, except
    that [OpenFile] throws when the stream has failed to open. *)
Record CheckedFileOut := { checked_stream : LibC.ofstream }.

#[export] Instance CheckedFileOut_IFileOut (P : Platform) : IFileOut CheckedFileOut := {
  OpenFile Filename f :=
    let stream := LibC.ofstream_open (fs_can_open P) Filename (checked_stream f) in
    ({| checked_stream := stream |},
     if LibC.failbit stream then Some (open_failure Filename) else None);
  WriteToFile Message f :=
    {| checked_stream := LibC.ofstream_write Message (checked_stream f) |};
  CloseFile f :=
    if LibC.is_open (checked_stream f)
    then {| checked_stream := LibC.ofstream_close (checked_stream f) |}
    else f
}.

(** * Properties *)

(** ** Strings *)

Lemma str_app_cons (c : ascii) (s t : string) : String c s +:+ t = String c (s +:+ t).
Proof. reflexivity. Qed.

Lemma str_app_nil_l (s : string) : "" +:+ s = s.
Proof. reflexivity. Qed.

Lemma str_app_nil_r (s : string) : s +:+ "" = s.
Proof. induction s as [|c s IH]; [reflexivity | now rewrite str_app_cons, IH]. Qed.

Lemma str_app_assoc (s1 s2 s3 : string) : (s1 +:+ s2) +:+ s3 = s1 +:+ (s2 +:+ s3).
Proof. induction s1 as [|c s1 IH]; [reflexivity | now rewrite !str_app_cons, IH]. Qed.

Lemma str_length_app (s1 s2 : string) :
  String.length (s1 +:+ s2) = (String.length s1 + String.length s2)%nat.
Proof.
  induction s1 as [|c s1 IH]; [reflexivity|].
  rewrite str_app_cons. simpl. now rewrite IH.
Qed.

Lemma substring_all (s : string) : substring 0 (String.length s) s = s.
Proof. induction s as [|c s IH]; simpl; [reflexivity | now rewrite IH]. Qed.

Lemma substring_none (n : nat) (s : string) : substring n 0 s = "".
Proof.
  revert s. induction n as [|n IH]; intros [|c s]; simpl; try reflexivity. apply IH.
Qed.

Lemma substring_empty (n m : nat) : substring n m "" = "".
Proof. destruct n, m; reflexivity. Qed.

Lemma fill_length (n : nat) (c : ascii) : String.length (LibC.fill n c) = n.
Proof. induction n as [|n IH]; simpl; [reflexivity | now rewrite IH]. Qed.

Lemma str_app_neq_self (s t : string) : t <> "" -> s +:+ t <> s.
Proof.
  intros Ht Heq. apply (f_equal String.length) in Heq.
  rewrite str_length_app in Heq. destruct t; [congruence | simpl in Heq; lia].
Qed.

(** ** Number formatting *)

Section Formatting.
Variable P : Platform.

(** What [resize] and the second [snprintf] leave in [Ret]: the text and,
    as one more character of the string, the terminator. *)
Lemma FormatIntegral_not_binary (fmt : ascii) (Num : Z) (Unsigned : string) :
  Ascii.eqb fmt "b" = false ->
  FormatIntegral P fmt Num Unsigned =
    LibC.printf_text P ("%l" +:+ (if Ascii.eqb fmt "d" then Unsigned else String fmt "")) Num
    +:+ String LibC.NUL "".
Proof.
  intros Hb. unfold FormatIntegral. rewrite Hb. cbn [negb].
  set (Format := if Ascii.eqb fmt "d" then "%l" +:+ Unsigned else "%l" +:+ String fmt "").
  replace ("%l" +:+ (if Ascii.eqb fmt "d" then Unsigned else String fmt "")) with Format
    by (unfold Format; destruct (Ascii.eqb fmt "d"); reflexivity).
  unfold LibC.snprintf_size, LibC.snprintf_write, LibC.resize.
  set (text := LibC.printf_text P Format Num).
  rewrite Nat.add_1_r, substring_all.
  rewrite substring_empty, str_app_nil_l.
  rewrite str_length_app, fill_length. cbn [String.length].
  replace (S (String.length text) - 0 - (String.length text + 1))%nat with 0%nat by lia.
  now rewrite substring_none, str_app_nil_r.
Qed.

Lemma binary_loop_length (i : nat) (Num : Z) (found : bool) (Ret : string) :
  (String.length (binary_loop i Num found Ret) <= String.length Ret + i)%nat.
Proof.
  revert found Ret. induction i as [|i IH]; intros found Ret; simpl; [lia|].
  match goal with |- (String.length (binary_loop i Num ?f ?r) <= _)%nat =>
    specialize (IH f r); etransitivity; [exact IH|] end.
  destruct (if negb found && _ then true else found); [|lia].
  rewrite str_length_app. destruct (negb _); cbn [String.length]; lia.
Qed.

(** The binary text never has more characters than [long] has bytes. *)
Lemma FormatIntegral_binary_length (Num : Z) (Unsigned : string) :
  (String.length (FormatIntegral P "b" Num Unsigned) <= Nat.max 1 (sizeof_long P))%nat.
Proof.
  unfold FormatIntegral. cbn [Ascii.eqb Bool.eqb negb].
  pose proof (binary_loop_length (sizeof_long P) Num false "") as H. simpl in H.
  destruct (String.eqb _ ""); simpl; lia.
Qed.

Lemma to_ulong_range (z : Z) : 0 <= LibC.to_ulong P z < 2 ^ LibC.long_bits P.
Proof.
  unfold LibC.to_ulong. apply Z.mod_pos_bound. apply Z.pow_pos_nonneg; [lia|].
  unfold LibC.long_bits. lia.
Qed.

Lemma to_ulong_idem (z : Z) : LibC.to_ulong P (LibC.to_ulong P z) = LibC.to_ulong P z.
Proof. apply Z.mod_small, to_ulong_range. Qed.

Lemma to_ulong_to_long (z : Z) : LibC.to_ulong P (LibC.to_long P z) = LibC.to_ulong P z.
Proof.
  unfold LibC.to_long. cbv zeta. destruct (_ <? _); [apply to_ulong_idem|].
  unfold LibC.to_ulong at 1.
  replace (LibC.to_ulong P z - 2 ^ LibC.long_bits P)
    with (LibC.to_ulong P z + (-1) * 2 ^ LibC.long_bits P) by ring.
  rewrite Z.mod_add; [apply to_ulong_idem|].
  pose proof (to_ulong_range z). lia.
Qed.

Lemma to_long_nonneg (z : Z) :
  0 <= LibC.to_long P z -> LibC.to_long P z = LibC.to_ulong P z.
Proof.
  intros H. pose proof (to_ulong_range z) as Hr. unfold LibC.to_long in *. cbv zeta in *.
  destruct (_ <? _); [reflexivity | lia].
Qed.

(** In decimal, hexadecimal and octal, what [operator<<] appends for an
    integer is the formatted text and then a NUL character. *)
Lemma inserted_integral_text (fmt : ascii) (val : Z) (is_signed : bool) :
  fmt = "d"%char \/ fmt = "x"%char \/ fmt = "o"%char ->
  inserted_text P fmt (if is_signed then VSigned P val else VUnsigned P val) =
    Spec.formatted_text P fmt (if is_signed then VSigned P val else VUnsigned P val)
    +:+ String LibC.NUL "".
Proof.
  intros Hfmt.
  assert (Hb : Ascii.eqb fmt "b" = false) by (destruct Hfmt as [->|[->| ->]]; reflexivity).
  destruct is_signed; cbn [inserted_text Spec.formatted_text];
    unfold FormatIntegral_signed, FormatIntegral_unsigned;
    rewrite (FormatIntegral_not_binary _ _ _ Hb); f_equal;
    unfold Spec.integral_text;
    destruct Hfmt as [->|[->| ->]]; cbv -[LibC.utoa LibC.to_ulong LibC.to_long Z.ltb Z.opp];
    rewrite ?to_ulong_to_long, ?to_ulong_idem; try reflexivity.
  destruct (Z.ltb_spec (LibC.to_long P val) 0); [reflexivity|].
  now rewrite to_long_nonneg.
Qed.

End Formatting.

(** ** The buffer map *)

Lemma subscript_lookup (now : Z) (tid : nat) (m : gmap nat Buffer) :
  (subscript now tid m).2 !! tid = Some (subscript now tid m).1.
Proof.
  unfold subscript. destruct (m !! tid) eqn:E; simpl; [exact E | apply lookup_insert_eq].
Qed.

Lemma subscript_absent (now : Z) (tid : nat) (m : gmap nat Buffer) :
  m !! tid = None -> (subscript now tid m).1 = Buffer_new now.
Proof. intros E. unfold subscript. now rewrite E. Qed.

Lemma subscript_present (now : Z) (tid : nat) (m : gmap nat Buffer) (b : Buffer) :
  m !! tid = Some b -> subscript now tid m = (b, m).
Proof. intros E. unfold subscript. now rewrite E. Qed.

Lemma subscript_delete (now : Z) (tid : nat) (m : gmap nat Buffer) :
  delete tid (subscript now tid m).2 = delete tid m.
Proof.
  unfold subscript. destruct (m !! tid); simpl; [reflexivity | apply delete_insert_eq].
Qed.

Lemma modify_lookup (now : Z) (tid : nat) (f : Buffer -> Buffer) (m : gmap nat Buffer) :
  modify now tid f m !! tid = Some (f (subscript now tid m).1).
Proof. unfold modify. destruct (subscript now tid m). apply lookup_insert_eq. Qed.

Lemma modify_lookup_ne (now : Z) (tid t : nat) (f : Buffer -> Buffer) (m : gmap nat Buffer) :
  tid <> t -> modify now tid f m !! t = m !! t.
Proof.
  intros Hne. unfold modify, subscript.
  destruct (m !! tid); rewrite !lookup_insert_ne by exact Hne; reflexivity.
Qed.

Lemma foldl_delete_lookup (l : list (nat * Buffer)) (m : gmap nat Buffer) (k : nat) :
  foldl (fun m' (it : nat * Buffer) => delete it.1 m') m l !! k =
    if decide (k ∈ l.*1) then None else m !! k.
Proof.
  revert m. induction l as [|it l IH]; intros m.
  - cbn [foldl]. rewrite decide_False by (cbn; apply not_elem_of_nil). reflexivity.
  - cbn [foldl]. rewrite IH. rewrite fmap_cons.
    destruct (decide (k ∈ l.*1)) as [Hin|Hnin].
    + rewrite decide_True by (right; exact Hin). reflexivity.
    + destruct (decide (k = it.1)) as [->|Hne].
      * rewrite decide_True by left. apply lookup_delete_eq.
      * rewrite decide_False by (intros H; apply elem_of_cons in H; tauto).
        apply lookup_delete_ne. congruence.
Qed.

Lemma entries_elem_of (m : gmap nat Buffer) (k : nat) (b : Buffer) :
  (k, b) ∈ entries m <-> m !! k = Some b.
Proof.
  unfold entries. rewrite merge_sort_Permutation. apply elem_of_map_to_list.
Qed.

(** The iterator meets the keys in ascending order. *)
Lemma entries_sorted (m : gmap nat Buffer) : StronglySorted key_le (entries m).
Proof.
  unfold entries. apply StronglySorted_merge_sort.
  - intros x y z. unfold key_le. lia.
  - intros x y. unfold key_le. lia.
Qed.

(** Erasing every entry the iterator meets leaves the map empty. *)
Lemma erase_entries (m : gmap nat Buffer) :
  foldl (fun m' (it : nat * Buffer) => delete it.1 m') m (entries m) = ∅.
Proof.
  apply map_eq. intros k. rewrite foldl_delete_lookup, lookup_empty.
  destruct (decide _) as [_|Hnin]; [reflexivity|].
  destruct (m !! k) as [b|] eqn:E; [|reflexivity].
  exfalso. apply Hnin. apply list_elem_of_fmap. exists (k, b). split; [reflexivity|].
  now apply entries_elem_of.
Qed.

(** ** Flushing *)

Section Flushing.
Variable P : Platform.
Context {F : Type} {IFO : IFileOut F}.

Lemma passes_filter_rendered (s : CLog F) (buf : Buffer) :
  passes_filter s buf = Spec.rendered (m_LogDebug s) (m_Level s) buf.
Proof.
  unfold passes_filter, Spec.rendered.
  destruct (m_LogDebug s), (DebugMsg buf); reflexivity.
Qed.

Lemma Flush_Buffers (s : CLog F) (tid : nat) (now : Z) :
  m_Buffers (Flush tid now s) = delete tid (m_Buffers s).
Proof.
  unfold Flush. rewrite <- (subscript_delete now tid (m_Buffers s)).
  destruct (subscript now tid (m_Buffers s)) as [buf bufs].
  unfold emit. destruct (passes_filter _ buf); [destruct (m_LogToFile _)|]; reflexivity.
Qed.

Lemma Flush_output (s : CLog F) (tid : nat) (now : Z) :
  output (Flush tid now s) =
    if passes_filter s (subscript now tid (m_Buffers s)).1
    then output s ++ [m_FormatMessage s (subscript now tid (m_Buffers s)).1]
    else output s.
Proof.
  unfold Flush. destruct (subscript now tid (m_Buffers s)) as [buf bufs].
  change (passes_filter (set_Buffers bufs s) buf) with (passes_filter s buf).
  unfold emit. cbn [fst]. destruct (passes_filter s buf); [|reflexivity].
  cbn. destruct (m_LogToFile s); reflexivity.
Qed.

Lemma Flush_OutFile (s : CLog F) (tid : nat) (now : Z) :
  m_OutFile (Flush tid now s) =
    if passes_filter s (subscript now tid (m_Buffers s)).1 && m_LogToFile s
    then WriteToFile (m_FormatMessage s (subscript now tid (m_Buffers s)).1) (m_OutFile s)
    else m_OutFile s.
Proof.
  unfold Flush. destruct (subscript now tid (m_Buffers s)) as [buf bufs].
  change (passes_filter (set_Buffers bufs s) buf) with (passes_filter s buf).
  unfold emit. cbn [fst]. destruct (passes_filter s buf); [|reflexivity].
  cbn. destruct (m_LogToFile s); reflexivity.
Qed.

Lemma Flush_settings (s : CLog F) (tid : nat) (now : Z) :
  m_FormatMessage (Flush tid now s) = m_FormatMessage s
  /\ m_LogToFile (Flush tid now s) = m_LogToFile s
  /\ m_LogDebug (Flush tid now s) = m_LogDebug s
  /\ m_Format (Flush tid now s) = m_Format s
  /\ m_Level (Flush tid now s) = m_Level s.
Proof.
  unfold Flush. destruct (subscript now tid (m_Buffers s)) as [buf bufs].
  destruct s as [o fm f ltf ld bs fmt lvl].
  unfold emit. destruct (passes_filter _ buf); cbn; [destruct ltf|]; cbn;
    repeat split; reflexivity.
Qed.

Lemma FlushAll_rounds (l : list (nat * Buffer)) (s : CLog F) :
  let s' := foldl FlushAll_round s l in
  output s' = output s ++ Spec.passing s l
  /\ m_OutFile s' =
       (if m_LogToFile s
        then foldl (fun f msg => WriteToFile msg f) (m_OutFile s) (Spec.passing s l)
        else m_OutFile s)
  /\ m_Buffers s' = foldl (fun m' (it : nat * Buffer) => delete it.1 m') (m_Buffers s) l
  /\ m_FormatMessage s' = m_FormatMessage s
  /\ m_LogToFile s' = m_LogToFile s
  /\ m_LogDebug s' = m_LogDebug s
  /\ m_Format s' = m_Format s
  /\ m_Level s' = m_Level s.
Proof.
  revert s. induction l as [|[k b] l IH]; intros s; cbn zeta.
  - unfold Spec.passing. cbn. rewrite app_nil_r. destruct (m_LogToFile s); repeat split; reflexivity.
  - cbn [foldl]. specialize (IH (FlushAll_round s (k, b))). cbn zeta in IH.
    destruct IH as (Ho & Hf & Hb & H1 & H2 & H3 & H4 & H5).
    rewrite Ho, Hf, Hb, H1, H2, H3, H4, H5. clear Ho Hf Hb H1 H2 H3 H4 H5.
    unfold Spec.passing, FlushAll_round, emit. rewrite passes_filter_rendered.
    destruct s as [o fm f ltf ld bs fmt lvl]. cbn.
    destruct (Spec.rendered ld lvl b); [|destruct ltf; repeat split; reflexivity].
    destruct ltf; cbn; rewrite <- app_assoc; repeat split; reflexivity.
Qed.

Lemma FlushAll_Buffers (s : CLog F) : m_Buffers (FlushAll s) = ∅.
Proof.
  unfold FlushAll. destruct (FlushAll_rounds (entries (m_Buffers s)) s) as (_ & _ & Hb & _).
  rewrite Hb. apply erase_entries.
Qed.

End Flushing.

(** ** The flush protocol *)

Section Protocol.
Variable P : Platform.
Context {F : Type} {IFO : IFileOut F}.

(** C2. The filter law. The condition tested by [Flush] and [FlushAll] is the
    one of the specification: a debug buffer passes iff debug logging is
    enabled and its level is at most the maximum visible level, another
    buffer iff its level is at most the maximum visible level. [Flush]
    takes the buffer the map holds for the caller (a default one when it
    holds none), renders it and hands the line to the output callback
    exactly when the buffer passes, and to the file sink when file logging
    is on as well; [FlushAll] does so for the buffers of the map, all of
    them, each once, in ascending order of the thread identities. *)
Theorem filter_law (s : CLog F) (tid : nat) (now : Z) :
  let shown := Spec.rendered (m_LogDebug s) (m_Level s) in
  let buf := default (Buffer_new now) (m_Buffers s !! tid) in
  (forall b, passes_filter s b = shown b)
  /\ output (Flush tid now s) =
       (if shown buf then output s ++ [m_FormatMessage s buf] else output s)
  /\ m_OutFile (Flush tid now s) =
       (if shown buf && m_LogToFile s
        then WriteToFile (m_FormatMessage s buf) (m_OutFile s)
        else m_OutFile s)
  /\ exists visited : list (nat * Buffer),
       (forall k b, (k, b) ∈ visited <-> m_Buffers s !! k = Some b)
       /\ NoDup visited.*1
       /\ StronglySorted (fun x y : nat * Buffer => (x.1 <= y.1)%nat) visited
       /\ let lines := m_FormatMessage s <$> List.filter shown visited.*2 in
          output (FlushAll s) = output s ++ lines
          /\ m_OutFile (FlushAll s) =
               (if m_LogToFile s
                then foldl (fun f msg => WriteToFile msg f) (m_OutFile s) lines
                else m_OutFile s).
Proof.
  cbn zeta. split; [apply passes_filter_rendered|].
  assert (Hbuf : (subscript now tid (m_Buffers s)).1 =
                 default (Buffer_new now) (m_Buffers s !! tid))
    by (unfold subscript; destruct (m_Buffers s !! tid); reflexivity).
  rewrite Flush_output, Flush_OutFile, passes_filter_rendered, Hbuf.
  do 2 (split; [reflexivity|]).
  exists (entries (m_Buffers s)).
  split; [intros k b; apply entries_elem_of|].
  split; [unfold entries; rewrite merge_sort_Permutation; apply NoDup_fst_map_to_list|].
  split; [apply entries_sorted|].
  destruct (FlushAll_rounds (entries (m_Buffers s)) s) as (Ho & Hf & _).
  split; [exact Ho | exact Hf].
Qed.

(** C5. [Flush] removes the buffer of the calling thread from the map and
    leaves the buffers of the other threads, whatever the map holds and
    whether or not the buffer passes the filter; the next append of the
    thread, by [operator<<] or [Put], starts from a default-constructed
    buffer and holds just the appended text. *)
Theorem Flush_erases_buffer (s : CLog F) (tid : nat) (now : Z) :
  m_Buffers (Flush tid now s) !! tid = None
  /\ m_Buffers (Flush tid now s) = delete tid (m_Buffers s)
  /\ (forall now' v,
        m_Buffers (shl P tid now' v (Flush tid now s)) !! tid =
          Some (set_Message (inserted_text P (m_Format s) v) (Buffer_new now')))
  /\ (forall now' c,
        m_Buffers (Put tid now' c (Flush tid now s)) !! tid =
          Some (set_Message (String c "") (Buffer_new now'))).
Proof.
  assert (Hgone : m_Buffers (Flush tid now s) !! tid = None)
    by (rewrite Flush_Buffers; apply lookup_delete_eq).
  split; [exact Hgone|]. split; [apply Flush_Buffers|].
  destruct (Flush_settings s tid now) as (_ & _ & _ & Hfmt & _).
  split; intros now' x; unfold shl, Put; cbn [m_Buffers set_Buffers];
    rewrite modify_lookup, (subscript_absent _ _ _ Hgone), ?Hfmt; reflexivity.
Qed.

(** C9. [Flush] by a thread that has no buffer: [operator[]] makes the
    default buffer (level 0, no tag, not a debug message, time shown), which
    passes the filter of a logger with the default settings, and the output
    callback receives one line: the time in brackets and nothing after it. *)
Theorem Flush_without_append (s : CLog F) (tid : nat) (now : Z) :
  m_Buffers s !! tid = None ->
  m_LogDebug s = false ->
  m_Level s = to_uint32 (-1) ->
  m_FormatMessage s = FormatMessage P ->
  (subscript now tid (m_Buffers s)).1 = Buffer_new now
  /\ passes_filter s (Buffer_new now) = true
  /\ output (Flush tid now s) =
       output s ++ ["[ " +:+ LibC.strftime_F_HMS (localtime P now) +:+ " ] " +:+ ""]
  /\ m_Buffers (Flush tid now s) !! tid = None.
Proof.
  intros Hnone Hdbg Hlvl Hfm.
  assert (Hpass : passes_filter s (Buffer_new now) = true)
    by (unfold passes_filter; rewrite Hdbg, Hlvl; reflexivity).
  split; [now apply subscript_absent|]. split; [exact Hpass|].
  split; [|rewrite Flush_Buffers; apply lookup_delete_eq].
  rewrite Flush_output, (subscript_absent _ _ _ Hnone), Hpass, Hfm.
  do 2 f_equal. unfold FormatMessage. cbn [Buffer_new Level ShowTime Tag Message Time].
  cbn [Z.to_nat indent_loop String.eqb negb]. rewrite !str_app_nil_l.
  now rewrite !str_app_assoc.
Qed.

End Protocol.

Lemma Flush_without_append_witness :
  let P := LP64.platform in
  let s := CLog_new P in
  (m_Buffers s !! 7%nat = None /\ m_LogDebug s = false /\ m_Level s = to_uint32 (-1)
   /\ m_FormatMessage s = FormatMessage P)
  /\ output (Flush (IFO := DefaultFileOut_IFileOut P) 7%nat 1589684699 s) =
       ["[ 2020-05-17 03:04:59 ] "].
Proof.
  cbn zeta. split; [repeat split; reflexivity|].
  pose proof (Flush_without_append LP64.platform (IFO := DefaultFileOut_IFileOut LP64.platform)
                (CLog_new LP64.platform) 7%nat 1589684699
                eq_refl eq_refl eq_refl eq_refl) as (_ & _ & H & _).
  rewrite H. vm_compute. reflexivity.
Defined.

(** ** The default renderer *)

Lemma indent_loop_fill (n : nat) (Ret : string) :
  indent_loop n Ret = Ret +:+ LibC.fill n " ".
Proof.
  revert Ret. induction n as [|n IH]; intros Ret; cbn [indent_loop LibC.fill].
  - now rewrite str_app_nil_r.
  - rewrite IH, str_app_assoc. reflexivity.
Qed.

Lemma FormatMessage_rendered_line (P : Platform) (buf : Buffer) :
  FormatMessage P buf = Spec.rendered_line P buf.
Proof.
  unfold FormatMessage, Spec.rendered_line. rewrite indent_loop_fill, str_app_nil_l.
  destruct (ShowTime buf), (String.eqb (Tag buf) ""); cbn [negb];
    rewrite ?str_app_nil_l, ?str_app_assoc; reflexivity.
Qed.

(** The rendered line is the header of the buffer and then its message. *)
Lemma FormatMessage_message (P : Platform) (buf : Buffer) :
  FormatMessage P buf = FormatMessage P (set_Message "" buf) +:+ Message buf.
Proof.
  rewrite !FormatMessage_rendered_line. unfold Spec.rendered_line.
  cbn [set_Message Level ShowTime Time Tag Message].
  now rewrite str_app_nil_r, !str_app_assoc.
Qed.

Lemma digit_char_is_digit (d : Z) :
  0 <= d < 10 -> Spec.is_digit (LibC.digit_char d) = true.
Proof.
  intros H.
  assert (d = 0 \/ d = 1 \/ d = 2 \/ d = 3 \/ d = 4 \/ d = 5 \/ d = 6 \/ d = 7 \/ d = 8 \/ d = 9)
    as Hd by lia.
  repeat (destruct Hd as [->|Hd]; [reflexivity|]). now subst.
Qed.

Lemma utoa_aux_step (fuel : nat) (base n : Z) (acc : string) :
  LibC.utoa_aux (S fuel) base n acc =
    if n / base =? 0 then String (LibC.digit_char (n mod base)) acc
    else LibC.utoa_aux fuel base (n / base) (String (LibC.digit_char (n mod base)) acc).
Proof. reflexivity. Qed.

Lemma utoa_four_digits (y : Z) :
  1000 <= y <= 9999 ->
  LibC.utoa 10 y =
    String (LibC.digit_char (y / 10 / 10 / 10 mod 10))
      (String (LibC.digit_char (y / 10 / 10 mod 10))
         (String (LibC.digit_char (y / 10 mod 10))
            (String (LibC.digit_char (y mod 10)) ""))).
Proof.
  intros H. unfold LibC.utoa.
  assert (H1 : (y / 10 =? 0) = false)
    by (apply Z.eqb_neq; Z.to_euclidean_division_equations; lia).
  assert (H2 : (y / 10 / 10 =? 0) = false)
    by (apply Z.eqb_neq; Z.to_euclidean_division_equations; lia).
  assert (H3 : (y / 10 / 10 / 10 =? 0) = false)
    by (apply Z.eqb_neq; Z.to_euclidean_division_equations; lia).
  assert (H4 : (y / 10 / 10 / 10 / 10 =? 0) = true)
    by (apply Z.eqb_eq; Z.to_euclidean_division_equations; lia).
  rewrite !utoa_aux_step, H1, H2, H3, H4. reflexivity.
Qed.

Lemma strftime_form (t : tm) :
  Spec.tm_valid t -> Spec.timestamp_form (LibC.strftime_F_HMS t) = true.
Proof.
  intros (Hy & Hmo & Hd & Hh & Hmi & Hs).
  unfold LibC.strftime_F_HMS, LibC.two_digits. rewrite (utoa_four_digits _ Hy).
  unfold Spec.timestamp_form.
  repeat rewrite str_app_cons. rewrite !str_app_nil_l.
  cbn [Spec.has_form Ascii.eqb Bool.eqb andb].
  rewrite !digit_char_is_digit
    by (try apply Z.mod_pos_bound; Z.to_euclidean_division_equations; lia).
  reflexivity.
Qed.

(** C7. The default renderer produces [Level] spaces, then, iff [ShowTime]
    is set, the local time of the buffer's creation in the form
    [[ YYYY-MM-DD HH:MM:SS ] ], then, iff the tag is not empty, [[ tag ] ],
    then the accumulated text. *)
Theorem FormatMessage_layout (P : Platform) (buf : Buffer) :
  Spec.tm_valid (localtime P (Time buf)) ->
  let stamp := LibC.strftime_F_HMS (localtime P (Time buf)) in
  FormatMessage P buf =
    LibC.fill (Z.to_nat (Level buf)) " "
    +:+ (if ShowTime buf then "[ " +:+ stamp +:+ " ] " else "")
    +:+ (if String.eqb (Tag buf) "" then "" else "[ " +:+ Tag buf +:+ " ] ")
    +:+ Message buf
  /\ String.length (LibC.fill (Z.to_nat (Level buf)) " ") = Z.to_nat (Level buf)
  /\ Spec.timestamp_form stamp = true.
Proof.
  intros Hvalid. cbn zeta. split; [apply FormatMessage_rendered_line|].
  split; [apply fill_length | now apply strftime_form].
Qed.

Lemma FormatMessage_layout_witness :
  let P := LP64.platform in
  let buf := {| Time := 1589684699; Tag := "debug"; Message := "1111 Test trueff";
                Level := 5; DebugMsg := true; ShowTime := true |} in
  Spec.tm_valid (localtime P (Time buf))
  /\ FormatMessage P buf = "     [ 2020-05-17 03:04:59 ] [ debug ] 1111 Test trueff".
Proof.
  cbn zeta.
  assert (Hvalid : Spec.tm_valid (localtime LP64.platform 1589684699))
    by (unfold Spec.tm_valid; vm_compute; intuition discriminate).
  split; [exact Hvalid|].
  pose proof (FormatMessage_layout LP64.platform
                {| Time := 1589684699; Tag := "debug"; Message := "1111 Test trueff";
                   Level := 5; DebugMsg := true; ShowTime := true |} Hvalid) as (H & _).
  rewrite H. vm_compute. reflexivity.
Defined.

(** ** The file sink *)

Section Sinks.
Variable P : Platform.
Context {F : Type} {IFO : IFileOut F}.

Lemma CloseLogFile_flag (s : CLog F) : m_LogToFile (CloseLogFile s) = false.
Proof. reflexivity. Qed.

(** X16. When [OpenFile] of the file sink throws, the exception leaves
    [LogToFile] and the file-logging flag stays off. *)
Lemma LogToFile_throwing_sink (s : CLog F) (Filename : string) (f : F) (e : exception) :
  OpenFile Filename (CloseFile (m_OutFile s)) = (f, Some e) ->
  (LogToFile Filename s).2 = Some e /\ m_LogToFile (LogToFile Filename s).1 = false.
Proof.
  intros H. unfold LogToFile, CloseLogFile. cbn [m_OutFile set_OutFile set_LogToFile].
  rewrite H. split; reflexivity.
Qed.

(** When [OpenFile] returns, so does [LogToFile], with the flag on. *)
Lemma LogToFile_returning_sink (s : CLog F) (Filename : string) (f : F) :
  OpenFile Filename (CloseFile (m_OutFile s)) = (f, None) ->
  (LogToFile Filename s).2 = None /\ m_LogToFile (LogToFile Filename s).1 = true.
Proof.
  intros H. unfold LogToFile, CloseLogFile. cbn [m_OutFile set_OutFile set_LogToFile].
  rewrite H. split; reflexivity.
Qed.

End Sinks.

(** C6. With the default file sink, [CloseLogFile] called twice in a row:
    after each call the file-logging flag is off and the stream is closed,
    neither call raises the error state of the stream, and the second call
    changes nothing. *)
Theorem CloseLogFile_idempotent (P : Platform) (s : CLog DefaultFileOut) :
  let close := CloseLogFile (IFO := DefaultFileOut_IFileOut P) in
  let stream (s' : CLog DefaultFileOut) := m_Output (m_OutFile s') in
  m_LogToFile (close s) = false
  /\ m_LogToFile (close (close s)) = false
  /\ LibC.is_open (stream (close s)) = false
  /\ LibC.is_open (stream (close (close s))) = false
  /\ LibC.failbit (stream (close s)) = LibC.failbit (stream s)
  /\ LibC.failbit (stream (close (close s))) = LibC.failbit (stream s)
  /\ close (close s) = close s.
Proof.
  destruct s as [o fm [[opened failed w]] ltf ld bs fmt lvl].
  destruct opened; cbn; repeat split; reflexivity.
Qed.

(** C4. With the default file sink, when the file cannot be opened
    [LogToFile] returns without an exception, the stream is left closed with
    [failbit] set, and the file-logging flag is on. *)
Theorem LogToFile_open_failure (P : Platform) (s : CLog DefaultFileOut) (Filename : string) :
  fs_can_open P Filename = false ->
  let r := LogToFile (IFO := DefaultFileOut_IFileOut P) Filename s in
  r.2 = None
  /\ m_LogToFile r.1 = true
  /\ LibC.is_open (m_Output (m_OutFile r.1)) = false
  /\ LibC.failbit (m_Output (m_OutFile r.1)) = true.
Proof.
  intros Hfail. destruct s as [o fm [[opened failed w]] ltf ld bs fmt lvl].
  destruct opened; cbn; unfold LibC.ofstream_open; cbn; rewrite Hfail; repeat split; reflexivity.
Qed.

Lemma LogToFile_open_failure_witness :
  let P := LP64.platform in
  let r := LogToFile (IFO := DefaultFileOut_IFileOut P) "/nonexistent/Test.log" (CLog_new P) in
  fs_can_open P "/nonexistent/Test.log" = false
  /\ r.2 = None /\ m_LogToFile r.1 = true.
Proof.
  cbn zeta. split; [reflexivity|].
  pose proof (LogToFile_open_failure LP64.platform (CLog_new LP64.platform)
                "/nonexistent/Test.log" eq_refl) as (H1 & H2 & _).
  split; [exact H1 | exact H2].
Defined.

(** ** Binary formatting *)

(** C3. In binary, 0 is formatted as ["0"] and 15 as ["1111"]; -1 is
    formatted as eight ones where [long] has 64 bits, one for each byte of
    [long] and not for each bit, and on no platform does the text have more
    characters than [long] has bytes. *)
Theorem FormatIntegral_binary :
  FormatIntegral LP64.platform "b" 0 "d" = "0"
  /\ FormatIntegral LP64.platform "b" 15 "d" = "1111"
  /\ FormatIntegral LP64.platform "b" (-1) "d" = "11111111"
  /\ LibC.long_bits LP64.platform = 64
  /\ Spec.integral_text LP64.platform "b" true (-1) = LibC.fill 64 "1"
  /\ FormatIntegral LP64.platform "b" (-1) "d" <> Spec.integral_text LP64.platform "b" true (-1)
  /\ FormatIntegral LP64.platform "b" 256 "d" = "0"
  /\ forall P Num Unsigned,
       (String.length (FormatIntegral P "b" Num Unsigned) <= Nat.max 1 (sizeof_long P))%nat.
Proof.
  repeat split; try (vm_compute; reflexivity).
  - vm_compute. discriminate.
  - apply FormatIntegral_binary_length.
Qed.

(** ** Locking *)

(** Methods that keep the discipline exclude each other: however two
    threads running such methods are scheduled, neither touches a member
    while the other holds the lock. *)
Lemma guarded_exclusive (sched : list bool) :
  forall (owner : option bool) (a b : list Locking.Action) (ha hb : bool)
         (trace : list (bool * Locking.Action * option bool)),
    Locking.guarded ha a = true ->
    Locking.guarded hb b = true ->
    (ha = true -> owner = Some false) ->
    (hb = true -> owner = Some true) ->
    Locking.interleave sched owner a b = Some trace ->
    existsb Locking.intrudes trace = false.
Proof.
  induction sched as [|t sched IH]; intros owner a b ha hb trace Ha Hb Hoa Hob Hrun.
  - injection Hrun as <-. reflexivity.
  - cbn [Locking.interleave] in Hrun.
    destruct t; [destruct b as [|act rest] | destruct a as [|act rest]];
      try discriminate Hrun;
      (destruct (Locking.move _ act owner) as [owner'|] eqn:Hmove; [|discriminate Hrun]);
      (destruct (Locking.interleave sched owner' _ _) as [trace'|] eqn:Hrest;
         [|discriminate Hrun]);
      injection Hrun as <-; cbn [existsb];
      destruct act; cbn [Locking.guarded] in Ha, Hb;
      repeat match goal with
             | H : _ && _ = true |- _ => apply andb_prop in H as [? ?]
             | H : negb ?h = true |- _ => apply negb_true_iff in H; subst h
             end; subst;
      cbn [Locking.move] in Hmove;
      try (rewrite (Hoa eq_refl) in * );
      try (rewrite (Hob eq_refl) in * );
      try (destruct owner as [[|]|]; cbn in Hmove);
      try discriminate Hmove; injection Hmove as <-;
      cbn [Locking.intrudes Locking.is_access fst snd andb Bool.eqb negb orb];
      (eapply IH in Hrest; [exact Hrest | eassumption | eassumption | |]);
      intros E; try reflexivity; try discriminate E;
      try (specialize (Hoa E); discriminate Hoa);
      try (specialize (Hob E); discriminate Hob); auto.
Qed.

(** X15. Two methods that take [m_LogLock] for each access exclude each
    other: in no schedule of two threads running them does one touch a
    member while the other holds the lock. *)
Corollary locking_methods_exclusive (m1 m2 : Locking.Method) (sched : list bool)
    (trace : list (bool * Locking.Action * option bool)) :
  Locking.locks m1 = true ->
  Locking.locks m2 = true ->
  Locking.interleave sched None (Locking.actions m1) (Locking.actions m2) = Some trace ->
  existsb Locking.intrudes trace = false.
Proof.
  intros H1 H2. apply (guarded_exclusive sched None _ _ false false trace H1 H2); discriminate.
Qed.

(** C8. [SetNumFormat] and [ShowLogLevel] write [m_Format] and [m_Level]
    without taking [m_LogLock], as do the three setters of the callbacks;
    [EnableDebugLog], the setter next to them, and every other method take
    the lock for each access. So a thread in [SetNumFormat] writes
    [m_Format] while another, inside [operator<<], holds the lock and is
    about to read it. *)
Theorem unlocked_setters :
  Locking.locks Locking.SetNumFormat = false
  /\ Locking.locks Locking.ShowLogLevel = false
  /\ Locking.actions Locking.SetNumFormat = [Locking.wr Locking.mFormat]
  /\ Locking.actions Locking.ShowLogLevel = [Locking.wr Locking.mLevel]
  /\ Locking.locks Locking.EnableDebugLog = true
  /\ List.filter (fun m => negb (Locking.locks m)) Locking.all_methods =
       [Locking.ShowLogLevel; Locking.SetNumFormat; Locking.SetOutputCallback;
        Locking.SetFormatCallback; Locking.SetFileOutCallback]
  /\ Locking.interleave [false; true; false; false; false] None
       (Locking.actions Locking.shl_signed) (Locking.actions Locking.SetNumFormat) =
       Some [(false, Locking.acquire, None);
             (true, Locking.wr Locking.mFormat, Some false);
             (false, Locking.rd Locking.mFormat, Some false);
             (false, Locking.wr Locking.mBuffers, Some false);
             (false, Locking.release, Some false)]
  /\ Locking.intrudes (true, Locking.wr Locking.mFormat, Some false) = true.
Proof. repeat split; reflexivity. Qed.

(** ** Sequences of calls *)

Lemma modify_levels (now : Z) (tid : nat) (f : Buffer -> Buffer) (m : gmap nat Buffer) :
  (forall b, 0 <= Level b < 2 ^ 32 -> 0 <= Level (f b) < 2 ^ 32) ->
  levels_in_range m -> levels_in_range (modify now tid f m).
Proof.
  intros Hf Hm. unfold modify, subscript, levels_in_range in *.
  destruct (m !! tid) as [b|] eqn:E.
  - apply map_Forall_insert_2; [apply Hf; exact (Hm tid b E) | exact Hm].
  - apply map_Forall_insert_2; [apply Hf; cbn; lia|].
    apply map_Forall_insert_2; [cbn; lia | exact Hm].
Qed.

Lemma message_of_subscript (now : Z) (tid : nat) (m : gmap nat Buffer) :
  Message (subscript now tid m).1 = message_of tid m.
Proof. unfold subscript, message_of. destruct (m !! tid); reflexivity. Qed.

Lemma message_of_modify (now : Z) (tid : nat) (f : Buffer -> Buffer) (m : gmap nat Buffer) :
  message_of tid (modify now tid f m) = Message (f (subscript now tid m).1).
Proof. unfold message_of. now rewrite modify_lookup. Qed.

Section Runs.
Variable P : Platform.
Context {F : Type} {IFO : IFileOut F}.

Lemma step_m_Level (s : CLog F) (tid : nat) (now : Z) (c : Call P) :
  is_ShowLogLevel P c = false -> m_Level (step P s (tid, now, c)) = m_Level s.
Proof.
  intros Hc. destruct c; try discriminate Hc; try reflexivity; cbn [step].
  - apply Flush_settings.
  - apply (FlushAll_rounds (entries (m_Buffers s)) s).
  - unfold LogToFile. destruct (OpenFile _ _) as [f [e|]]; reflexivity.
Qed.

Lemma step_levels (s : CLog F) (ev : nat * Z * Call P) :
  levels_in_range (m_Buffers s) -> levels_in_range (m_Buffers (step P s ev)).
Proof.
  intros Hs. destruct ev as [[tid now] c].
  destruct c; cbn [step]; try exact Hs;
    try (apply modify_levels; [intros b Hb; exact Hb | exact Hs]).
  - unfold SetTag. cbn [m_Buffers set_Buffers].
    do 2 (apply modify_levels; [intros b Hb; exact Hb|]). exact Hs.
  - apply modify_levels; [|exact Hs]. intros b _. cbn [set_Level Level].
    unfold to_uint32. apply Z.mod_pos_bound. lia.
  - rewrite Flush_Buffers. now apply map_Forall_delete.
  - rewrite FlushAll_Buffers. apply map_Forall_empty.
  - unfold LogToFile. destruct (OpenFile _ _) as [f [e|]]; exact Hs.
Qed.

Lemma run_levels (evs : list (nat * Z * Call P)) (s : CLog F) :
  levels_in_range (m_Buffers s) -> levels_in_range (m_Buffers (run P evs s)).
Proof.
  revert s. unfold run. induction evs as [|ev evs IH]; intros s Hs; [exact Hs|].
  cbn [foldl]. apply IH, step_levels, Hs.
Qed.

Lemma run_m_Level (evs : list (nat * Z * Call P)) (s : CLog F) :
  forallb (fun ev : nat * Z * Call P => negb (is_ShowLogLevel P ev.2)) evs = true ->
  m_Level (run P evs s) = m_Level s.
Proof.
  revert s. unfold run. induction evs as [|[[tid now] c] evs IH]; intros s Hevs; [reflexivity|].
  cbn [forallb snd] in Hevs. apply andb_prop in Hevs as [Hc Hevs].
  cbn [foldl]. rewrite (IH _ Hevs). apply step_m_Level. now apply negb_true_iff.
Qed.

(** One composing call of a thread extends the text it has composed by the
    text the call inserts, and touches neither sink nor filter. *)
Lemma step_composing (s : CLog F) (tid : nat) (now : Z) (c : Call P) :
  composing P c = true ->
  let s' := step P s (tid, now, c) in
  message_of tid (m_Buffers s') =
    message_of tid (m_Buffers s) +:+ composed_text P (m_Format s) [(now, c)]
  /\ (forall cs, composed_text P (m_Format s) ((now, c) :: cs) =
                   composed_text P (m_Format s) [(now, c)] +:+ composed_text P (m_Format s') cs)
  /\ output s' = output s
  /\ m_FormatMessage s' = m_FormatMessage s.
Proof.
  intros Hc. destruct c; try discriminate Hc; cbn zeta; cbn [step composed_text];
    unfold shl, Put, SetTag, SetLogLevel, ShowTimestamp, SetNumFormat;
    cbn [m_Buffers set_Buffers set_Format m_Format output m_FormatMessage];
    rewrite ?message_of_modify;
    cbn [append_Message set_Message set_DebugMsg set_Level set_ShowTime Message];
    rewrite ?message_of_subscript, ?message_of_modify; cbn [set_Tag Message];
    rewrite ?message_of_subscript, ?str_app_nil_r;
    repeat split; intros; rewrite ?str_app_nil_r; reflexivity.
Qed.

Lemma run_composing (cs : list (Z * Call P)) (s : CLog F) (tid : nat) :
  forallb (composing P) cs.*2 = true ->
  let s' := run P (by_thread P tid cs) s in
  message_of tid (m_Buffers s') =
    message_of tid (m_Buffers s) +:+ composed_text P (m_Format s) cs
  /\ output s' = output s
  /\ m_FormatMessage s' = m_FormatMessage s.
Proof.
  revert s. unfold run, by_thread.
  induction cs as [|[now c] cs IH]; intros s Hcs; cbn zeta.
  - cbn. now rewrite str_app_nil_r.
  - rewrite fmap_cons in Hcs. cbn [forallb snd] in Hcs. apply andb_prop in Hcs as [Hc Hcs].
    rewrite fmap_cons. cbn [foldl fst snd].
    destruct (step_composing s tid now c Hc) as (Hm & Ht & Ho & Hf).
    destruct (IH (step P s (tid, now, c)) Hcs) as (Hm' & Ho' & Hf').
    rewrite Hm', Ho', Hf', Hm, Ho, Hf, (Ht cs), str_app_assoc. repeat split; reflexivity.
Qed.

(** X14. What a thread composes is what its flush renders: appends and setters by
    one thread that had no buffer, then [Flush]; the message of the buffer
    is the texts the appends inserted, in the order of the appends, and with
    the default renderer the line handed to the sinks is the header of the
    buffer followed by that message. *)
Theorem composed_message_flushed (s : CLog F) (tid : nat) (cs : list (Z * Call P)) (now : Z) :
  forallb (composing P) cs.*2 = true ->
  m_Buffers s !! tid = None ->
  let s' := run P (by_thread P tid cs) s in
  let buf := (subscript now tid (m_Buffers s')).1 in
  Message buf = composed_text P (m_Format s) cs
  /\ (passes_filter s' buf = true ->
      m_FormatMessage s = FormatMessage P ->
      output (Flush tid now s') =
        output s ++ [FormatMessage P (set_Message "" buf) +:+ composed_text P (m_Format s) cs]).
Proof.
  intros Hcs Hnone. cbn zeta.
  destruct (run_composing cs s tid Hcs) as (Hm & Ho & Hf).
  assert (Hmsg : Message (subscript now tid (m_Buffers (run P (by_thread P tid cs) s))).1 =
                 composed_text P (m_Format s) cs).
  { rewrite message_of_subscript, Hm. unfold message_of. now rewrite Hnone. }
  split; [exact Hmsg|]. intros Hpass Hfm.
  rewrite Flush_output, Hpass, Ho, Hf, Hfm, FormatMessage_message, Hmsg. reflexivity.
Qed.

End Runs.

(** ** The level threshold of a new logger *)

(** C10. A new logger holds -1 converted to [uint32_t], 2^32 - 1, as its
    maximum visible level; as long as no call of [ShowLogLevel] is made the
    threshold stays, every level a buffer can hold is at most the
    threshold, and the filter of [Flush] and [FlushAll] only looks at the
    debug flag. *)
Theorem default_level_shows_all (P : Platform) (evs : list (nat * Z * Call P)) :
  forallb (fun ev : nat * Z * Call P => negb (is_ShowLogLevel P ev.2)) evs = true ->
  let s := run P (IFO := DefaultFileOut_IFileOut P) evs (CLog_new P) in
  m_Level (CLog_new P) = 2 ^ 32 - 1
  /\ m_Level s = 2 ^ 32 - 1
  /\ (forall tid b, m_Buffers s !! tid = Some b ->
        Level b <= m_Level s /\ passes_filter s b = m_LogDebug s || negb (DebugMsg b))
  /\ (forall tid now,
        let buf := (subscript now tid (m_Buffers s)).1 in
        Level buf <= m_Level s /\ passes_filter s buf = m_LogDebug s || negb (DebugMsg buf)).
Proof.
  intros Hevs. cbn zeta.
  set (s := run P (IFO := DefaultFileOut_IFileOut P) evs (CLog_new P)).
  assert (Hlvl : m_Level s = 2 ^ 32 - 1) by (unfold s; rewrite run_m_Level by exact Hevs; reflexivity).
  assert (Hinv : levels_in_range (m_Buffers s)) by (apply run_levels, map_Forall_empty).
  assert (Hpass : forall b, 0 <= Level b < 2 ^ 32 ->
            Level b <= m_Level s /\ passes_filter s b = m_LogDebug s || negb (DebugMsg b)).
  { intros b Hb. rewrite Hlvl. split; [lia|]. unfold passes_filter. rewrite Hlvl.
    replace (Level b <=? 2 ^ 32 - 1) with true by (symmetry; apply Z.leb_le; lia).
    destruct (m_LogDebug s), (DebugMsg b); reflexivity. }
  split; [reflexivity|]. split; [exact Hlvl|]. split.
  - intros tid b Hb. apply Hpass. exact (Hinv tid b Hb).
  - intros tid now. apply Hpass. unfold subscript.
    destruct (m_Buffers s !! tid) as [b|] eqn:E; cbn [fst]; [exact (Hinv tid b E) | cbn; lia].
Qed.

Lemma default_level_shows_all_witness :
  let P := LP64.platform in
  let evs := [(1%nat, 0, call_SetLogLevel P 4294967295); (1%nat, 0, call_shl P (VString P "deep"))] in
  forallb (fun ev : nat * Z * Call P => negb (is_ShowLogLevel P ev.2)) evs = true
  /\ m_Level (run P (IFO := DefaultFileOut_IFileOut P) evs (CLog_new P)) = 2 ^ 32 - 1.
Proof.
  cbn zeta. split; [reflexivity|].
  exact (proj1 (proj2 (default_level_shows_all LP64.platform
    [(1%nat, 0, call_SetLogLevel LP64.platform 4294967295);
     (1%nat, 0, call_shl LP64.platform (VString LP64.platform "deep"))] eq_refl))).
Defined.

(** ** The text of an appended integer *)

Lemma append_and_flush_output (P : Platform) (fmt : ascii) (v : Value P) (tid : nat) (now : Z) :
  append_and_flush P fmt v tid now = [inserted_text P fmt v].
Proof.
  unfold append_and_flush. cbn zeta. rewrite Flush_output.
  set (s0 := SetNumFormat fmt (ShowTimestamp tid now false (CLog_new P))).
  assert (H0 : (subscript now tid (m_Buffers s0)).1 = set_ShowTime false (Buffer_new now)).
  { erewrite subscript_present; [reflexivity|].
    unfold s0, SetNumFormat, ShowTimestamp. cbn [m_Buffers set_Format set_Buffers CLog_new].
    rewrite modify_lookup. reflexivity. }
  erewrite subscript_present
    by (unfold shl; cbn [m_Buffers set_Buffers]; rewrite modify_lookup, H0; reflexivity).
  cbn [fst]. unfold shl, passes_filter.
  cbn [s0 SetNumFormat ShowTimestamp CLog_new set_Format set_Buffers m_LogDebug m_Level
       m_Format m_FormatMessage output append_Message set_Message set_ShowTime Buffer_new
       DebugMsg Level Message Tag ShowTime Time orb andb negb].
  replace (0 <=? to_uint32 (-1)) with true by reflexivity. cbn [app].
  reflexivity.
Qed.

(** C1. Appending an integer in decimal, hexadecimal or octal puts the
    formatted text and then a NUL character into the message: the line
    flushed after appending 255 is "255" followed by NUL and not "255", and
    so it is for every integer, signed or unsigned, on every platform. *)
Theorem integral_append_keeps_NUL :
  append_and_flush LP64.platform "d" (VSigned LP64.platform 255) 1 0 =
    ["255" +:+ String LibC.NUL ""]
  /\ Spec.formatted_text LP64.platform "d" (VSigned LP64.platform 255) = "255"
  /\ forall (P : Platform) (tid : nat) (now val : Z) (is_signed : bool),
       let v := if is_signed then VSigned P val else VUnsigned P val in
       Forall (fun fmt =>
                 append_and_flush P fmt v tid now =
                   [Spec.formatted_text P fmt v +:+ String LibC.NUL ""]
                 /\ append_and_flush P fmt v tid now <> [Spec.formatted_text P fmt v])
              ["d"; "x"; "o"]%char.
Proof.
  split; [vm_compute; reflexivity|]. split; [vm_compute; reflexivity|].
  intros P tid now val is_signed. cbn zeta.
  assert (H : forall fmt, fmt = "d"%char \/ fmt = "x"%char \/ fmt = "o"%char ->
    append_and_flush P fmt (if is_signed then VSigned P val else VUnsigned P val) tid now =
      [Spec.formatted_text P fmt (if is_signed then VSigned P val else VUnsigned P val)
       +:+ String LibC.NUL ""]
    /\ append_and_flush P fmt (if is_signed then VSigned P val else VUnsigned P val) tid now <>
         [Spec.formatted_text P fmt (if is_signed then VSigned P val else VUnsigned P val)]).
  { intros fmt Hfmt. rewrite append_and_flush_output, inserted_integral_text by exact Hfmt.
    split; [reflexivity|]. intros Heq. injection Heq as Heq.
    revert Heq. now apply str_app_neq_self. }
  repeat constructor; apply H; auto.
Qed.

(** The first line [main] logs: the appended texts in the order of the
    appends, the NUL after the hexadecimal number included. *)
Example main_first_line :
  output (main_first_message LP64.platform 1 0) =
    ["     [ 1970-01-01 00:00:00 ] [ debug ] Test 1111 Test trueff"
     +:+ String LibC.NUL (String "010" "")].
Proof. vm_compute. reflexivity. Qed.

(** * Further properties *)

(** ** Binary digits *)

Lemma bin_value_app (s t : string) (acc : Z) :
  bin_value acc (s +:+ t) =
    match bin_value acc s with
    | Some acc' => bin_value acc' t
    | None => None
    end.
Proof.
  revert acc. induction s as [|c s IH]; intros acc; [reflexivity|].
  rewrite str_app_cons. cbn [bin_value].
  destruct (Ascii.eqb c "1"); [apply IH|]. destruct (Ascii.eqb c "0"); [apply IH | reflexivity].
Qed.

Lemma land_bit (Num : Z) (i : nat) :
  (Z.land Num (Z.shiftl 1 (Z.of_nat i)) =? 0) = negb (Z.testbit Num (Z.of_nat i)).
Proof.
  rewrite Z.shiftl_1_l.
  assert (H : Z.land Num (2 ^ Z.of_nat i) =
              if Z.testbit Num (Z.of_nat i) then 2 ^ Z.of_nat i else 0).
  { apply Z.bits_inj'. intros n Hn. rewrite Z.land_spec, Z.pow2_bits_eqb by lia.
    destruct (Z.eqb_spec (Z.of_nat i) n) as [<-|Hne].
    - rewrite andb_true_r. destruct (Z.testbit Num (Z.of_nat i)) eqn:E.
      + rewrite Z.pow2_bits_true by lia. reflexivity.
      + now rewrite Z.bits_0.
    - rewrite andb_false_r. destruct (Z.testbit Num (Z.of_nat i)).
      + rewrite Z.pow2_bits_false by lia. reflexivity.
      + now rewrite Z.bits_0. }
  rewrite H. destruct (Z.testbit Num (Z.of_nat i)); cbn [negb].
  - apply Z.eqb_neq. pose proof (Z.pow_pos_nonneg 2 (Z.of_nat i)). lia.
  - reflexivity.
Qed.

Lemma mod_pow2_succ (Num : Z) (i : nat) :
  Num mod 2 ^ Z.of_nat (S i) =
    (if Z.testbit Num (Z.of_nat i) then 2 ^ Z.of_nat i else 0) + Num mod 2 ^ Z.of_nat i.
Proof.
  rewrite Nat2Z.inj_succ, Z.pow_succ_r by lia.
  assert (Hpos : 0 < 2 ^ Z.of_nat i) by (apply Z.pow_pos_nonneg; lia).
  rewrite (Z.mul_comm 2), Z.rem_mul_r by lia.
  destruct (Z.testbit Num (Z.of_nat i)) eqn:E.
  - apply Z.testbit_true in E; [|lia]. rewrite E. lia.
  - apply Z.testbit_false in E; [|lia]. rewrite E. lia.
Qed.

Lemma binary_loop_value (Num : Z) (i : nat) :
  forall (found : bool) (Ret : string) (v : Z),
    (found = false -> Ret = "") ->
    bin_value 0 Ret = Some v ->
    bin_value 0 (binary_loop i Num found Ret) =
      Some (v * 2 ^ Z.of_nat i + Num mod 2 ^ Z.of_nat i).
Proof.
  induction i as [|i IH]; intros found Ret v Hret Hv.
  - cbn [binary_loop]. change (2 ^ Z.of_nat 0) with 1. rewrite Z.mod_1_r, Hv. f_equal. lia.
  - cbn [binary_loop]. rewrite land_bit, negb_involutive, mod_pow2_succ.
    rewrite Nat2Z.inj_succ, Z.pow_succ_r by lia.
    destruct found, (Z.testbit Num (Z.of_nat i)); cbn [negb andb].
    + rewrite (IH true _ (2 * v + 1)); [f_equal; lia | discriminate|].
      rewrite bin_value_app, Hv. reflexivity.
    + rewrite (IH true _ (2 * v)); [f_equal; lia | discriminate|].
      rewrite bin_value_app, Hv. reflexivity.
    + rewrite (Hret eq_refl) in *. injection Hv as <-.
      rewrite (IH true _ 1); [f_equal; lia | discriminate | reflexivity].
    + rewrite (IH false Ret v Hret Hv). rewrite (Hret eq_refl) in Hv.
      injection Hv as <-. f_equal; lia.
Qed.

Lemma binary_loop_found (Num : Z) (i : nat) :
  forall Ret, exists t, binary_loop i Num true Ret = Ret +:+ t.
Proof.
  induction i as [|i IH]; intros Ret; cbn [binary_loop negb andb].
  - exists "". now rewrite str_app_nil_r.
  - destruct (IH (Ret +:+ (if negb (Z.land Num (Z.shiftl 1 (Z.of_nat i)) =? 0) then "1" else "0")))
      as [t Ht].
    rewrite Ht, str_app_assoc. eauto.
Qed.

Lemma binary_loop_leading_one (Num : Z) (i : nat) :
  binary_loop i Num false "" = "" \/ exists t, binary_loop i Num false "" = String "1" t.
Proof.
  induction i as [|i IH]; cbn [binary_loop negb andb]; [now left|].
  destruct (negb (Z.land Num (Z.shiftl 1 (Z.of_nat i)) =? 0)); [|exact IH].
  right. rewrite str_app_nil_l. destruct (binary_loop_found Num i "1") as [t Ht].
  exists t. rewrite Ht. reflexivity.
Qed.

(** X3. The binary text is a binary numeral, each character a 0 or a 1,
    whose value is the low [sizeof(long)] bits of the number, and it has no
    leading zero: it is ["0"] or starts with a one. *)
Theorem FormatIntegral_binary_value (P : Platform) (Num : Z) (Unsigned : string) :
  bin_value 0 (FormatIntegral P "b" Num Unsigned) = Some (Num mod 2 ^ Z.of_nat (sizeof_long P))
  /\ (FormatIntegral P "b" Num Unsigned = "0"
      \/ exists t, FormatIntegral P "b" Num Unsigned = String "1" t).
Proof.
  unfold FormatIntegral. cbn [Ascii.eqb Bool.eqb negb].
  pose proof (binary_loop_value Num (sizeof_long P) false "" 0 (fun _ => eq_refl) eq_refl) as Hv.
  rewrite Z.mul_0_l, Z.add_0_l in Hv.
  destruct (binary_loop_leading_one Num (sizeof_long P)) as [He|[t Ht]].
  - rewrite He in *. cbn [String.eqb]. injection Hv as Hv.
    split; [cbn; now rewrite <- Hv | now left].
  - rewrite Ht in *. cbn [String.eqb]. split; [exact Hv | right; eauto].
Qed.

(** ** Threads and their buffers *)

Lemma modify_insert (now : Z) (tid : nat) (f : Buffer -> Buffer) (m : gmap nat Buffer) :
  modify now tid f m = <[tid := f (subscript now tid m).1]> m.
Proof.
  unfold modify, subscript. destruct (m !! tid); cbn [fst]; [reflexivity|].
  apply insert_insert_eq.
Qed.

Lemma modify_present (now : Z) (tid : nat) (f : Buffer -> Buffer) (m : gmap nat Buffer) (b : Buffer) :
  m !! tid = Some b -> modify now tid f m !! tid = Some (f b).
Proof. intros E. now rewrite modify_lookup, (subscript_present _ _ _ _ E). Qed.

Section Isolation.
Variable P : Platform.
Context {F : Type} {IFO : IFileOut F}.

Lemma step_other_lookup (s : CLog F) (tid t : nat) (now : Z) (c : Call P) :
  is_FlushAll P c = false -> tid <> t ->
  m_Buffers (step P s (tid, now, c)) !! t = m_Buffers s !! t.
Proof.
  intros Hc Hne. destruct c; try discriminate Hc; cbn [step]; try reflexivity;
    unfold shl, Put, SetTag, SetLogLevel, ShowTimestamp; cbn [m_Buffers set_Buffers];
    rewrite ?modify_lookup_ne by exact Hne; try reflexivity.
  - rewrite Flush_Buffers. now apply lookup_delete_ne.
  - unfold LogToFile. destruct (OpenFile _ _) as [f [e|]]; reflexivity.
Qed.

Lemma step_m_Format (s : CLog F) (ev : nat * Z * Call P) :
  m_Format (step P s ev) =
    match ev.2 with
    | call_SetNumFormat _ format => format
    | _ => m_Format s
    end.
Proof.
  destruct ev as [[tid now] c]. destruct c; cbn [step snd]; try reflexivity.
  - apply Flush_settings.
  - apply (FlushAll_rounds (entries (m_Buffers s)) s).
  - unfold LogToFile. destruct (OpenFile _ _) as [f [e|]]; reflexivity.
Qed.

Lemma message_of_other (s s' : CLog F) (tid : nat) :
  m_Buffers s' !! tid = m_Buffers s !! tid ->
  message_of tid (m_Buffers s') = message_of tid (m_Buffers s).
Proof. intros H. unfold message_of. now rewrite H. Qed.

Lemma step_thread_text (s : CLog F) (tid : nat) (ev : nat * Z * Call P) :
  keeps P tid ev = true ->
  message_of tid (m_Buffers (step P s ev)) =
    message_of tid (m_Buffers s) +:+ thread_text P tid (m_Format s) [ev]
  /\ forall evs, thread_text P tid (m_Format s) (ev :: evs) =
                 thread_text P tid (m_Format s) [ev]
                 +:+ thread_text P tid (m_Format (step P s ev)) evs.
Proof.
  intros Hk. rewrite step_m_Format. destruct ev as [[t now] c].
  destruct (Nat.eqb_spec t tid) as [->|Hne].
  - destruct c; try discriminate Hk;
      try (cbn in Hk; rewrite Nat.eqb_refl in Hk; discriminate Hk);
      cbn [step thread_text snd]; rewrite ?Nat.eqb_refl;
      unfold shl, Put, SetTag, SetLogLevel, ShowTimestamp, ShowLogLevel, EnableDebugLog,
        SetNumFormat, SetFormatCallback, CloseLogFile;
      cbn [m_Buffers set_Buffers set_Format set_m_Level set_LogDebug set_FormatMessage
           set_OutFile set_LogToFile];
      rewrite ?message_of_modify;
      cbn [append_Message set_Message set_DebugMsg set_Level set_ShowTime Message];
      rewrite ?message_of_subscript, ?message_of_modify; cbn [set_Tag Message];
      rewrite ?message_of_subscript, ?str_app_nil_r;
      try (split; [reflexivity | intros evs; rewrite ?str_app_nil_r; reflexivity]).
    unfold LogToFile, CloseLogFile. destruct (OpenFile _ _) as [f [e|]];
      (split; [reflexivity | intros evs; reflexivity]).
  - assert (Hsame : message_of tid (m_Buffers (step P s (t, now, c))) =
                    message_of tid (m_Buffers s)).
    { apply message_of_other, step_other_lookup; [|exact Hne].
      destruct c; try reflexivity. discriminate Hk. }
    rewrite Hsame.
    destruct c; cbn [thread_text snd];
      rewrite ?(proj2 (Nat.eqb_neq t tid) Hne), ?str_app_nil_l, ?str_app_nil_r;
      (split; [reflexivity | intros evs; reflexivity]).
Qed.

(** X1. Threads do not interleave their texts: however the calls of the
    threads are ordered, as long as each call keeps the lock for all it does,
    thread [tid] does not flush and nobody calls [FlushAll], the message of
    [tid] grows by the texts of its own appends, in their order, and by
    nothing else, and the number format stays the one of the start. *)
Theorem threads_do_not_interleave (evs : list (nat * Z * Call P)) (s : CLog F) (tid : nat) :
  forallb (fun ev : nat * Z * Call P => one_critical_section P ev.2) evs = true ->
  forallb (keeps P tid) evs = true ->
  message_of tid (m_Buffers (run P evs s)) =
    message_of tid (m_Buffers s) +:+ thread_text P tid (m_Format s) evs
  /\ m_Format (run P evs s) = m_Format s.
Proof.
  revert s. unfold run. induction evs as [|ev evs IH]; intros s Hl Hk.
  - cbn. now rewrite str_app_nil_r.
  - cbn [forallb] in Hl, Hk. apply andb_prop in Hl as [Hev' Hl].
    apply andb_prop in Hk as [Hev Hk]. cbn [foldl].
    destruct (step_thread_text s tid ev Hev) as [Hm Ht].
    destruct (IH (step P s ev) Hl Hk) as [IHm IHf].
    assert (Hfmt : m_Format (step P s ev) = m_Format s).
    { rewrite step_m_Format. destruct ev as [[t now] c]. destruct c; try reflexivity.
      discriminate Hev'. }
    rewrite IHm, IHf, Hm, (Ht evs), str_app_assoc. split; [reflexivity | exact Hfmt].
Qed.

(** X2. The calls of the other threads, [FlushAll] apart, leave the buffer
    of a thread as it is. *)
Theorem other_threads_keep_buffer (evs : list (nat * Z * Call P)) (s : CLog F) (t : nat) :
  forallb (fun ev : nat * Z * Call P => negb (is_FlushAll P ev.2) && negb (Nat.eqb ev.1.1 t)) evs
    = true ->
  m_Buffers (run P evs s) !! t = m_Buffers s !! t.
Proof.
  revert s. unfold run. induction evs as [|[[tid now] c] evs IH]; intros s Hevs; [reflexivity|].
  cbn [forallb fst snd] in Hevs. apply andb_prop in Hevs as [Hev Hevs].
  apply andb_prop in Hev as [Hc Ht]. cbn [foldl]. rewrite (IH _ Hevs).
  apply step_other_lookup; [now apply negb_true_iff|].
  apply negb_true_iff, Nat.eqb_neq in Ht. exact Ht.
Qed.

Lemma step_keeps_Time (s : CLog F) (tid : nat) (ev : nat * Z * Call P) (b : Buffer) :
  keeps P tid ev = true ->
  m_Buffers s !! tid = Some b ->
  exists b', m_Buffers (step P s ev) !! tid = Some b' /\ Time b' = Time b.
Proof.
  intros Hk Hb. destruct ev as [[t now] c].
  destruct (Nat.eqb_spec t tid) as [->|Hne].
  - destruct c; try discriminate Hk;
      try (cbn in Hk; rewrite Nat.eqb_refl in Hk; discriminate Hk);
      cbn [step]; unfold shl, Put, SetTag, SetLogLevel, ShowTimestamp;
      cbn [m_Buffers set_Buffers];
      try (erewrite modify_present by (try erewrite modify_present by exact Hb; try exact Hb; reflexivity);
           eexists; split; reflexivity);
      try (exists b; split; [exact Hb | reflexivity]).
    unfold LogToFile. destruct (OpenFile _ _) as [f [e|]]; exists b; split; auto.
  - exists b. split; [|reflexivity]. rewrite <- Hb. apply step_other_lookup; [|exact Hne].
    destruct c; try reflexivity. discriminate Hk.
Qed.

(** X4. The time a buffer carries, which the renderer shows, is the time of
    the call that created it, the first append or setter of the thread since
    its last flush, whatever calls follow before the flush. *)
Theorem buffer_time_is_creation_time (evs : list (nat * Z * Call P)) (s : CLog F)
    (tid : nat) (now : Z) (c : Call P) :
  m_Buffers s !! tid = None ->
  touches_buffer P c = true ->
  forallb (keeps P tid) evs = true ->
  exists b, m_Buffers (run P ((tid, now, c) :: evs) s) !! tid = Some b /\ Time b = now.
Proof.
  intros Hnone Hc Hk. unfold run. cbn [foldl].
  assert (Hfirst : exists b, m_Buffers (step P s (tid, now, c)) !! tid = Some b /\ Time b = now).
  { destruct c; try discriminate Hc; cbn [step];
      unfold shl, Put, SetTag, SetLogLevel, ShowTimestamp; cbn [m_Buffers set_Buffers];
      rewrite !modify_lookup; rewrite ?modify_lookup;
      cbn [m_Buffers set_Buffers];
      rewrite ?(subscript_absent _ _ _ Hnone); eexists; (split; [reflexivity|]);
      try reflexivity.
    erewrite subscript_present by (rewrite modify_lookup, (subscript_absent _ _ _ Hnone); reflexivity).
    reflexivity. }
  clear Hnone Hc. revert Hfirst. generalize (step P s (tid, now, c)). clear s.
  induction evs as [|ev evs IH]; intros s [b [Hb Ht]]; [exists b; auto|].
  cbn [forallb] in Hk. apply andb_prop in Hk as [Hev Hk]. cbn [foldl].
  apply (IH Hk). destruct (step_keeps_Time s tid ev b Hev Hb) as [b' [Hb' Ht']].
  exists b'. split; [exact Hb' | congruence].
Qed.

End Isolation.

(** ** Setters of the buffer *)

Lemma subscript_insert (now : Z) (tid : nat) (b : Buffer) (m : gmap nat Buffer) :
  (subscript now tid (<[tid := b]> m)).1 = b.
Proof. unfold subscript. now rewrite lookup_insert_eq. Qed.

Lemma entries_empty : entries ∅ = [].
Proof. unfold entries. now rewrite map_to_list_empty. Qed.

Section Composition.
Variable P : Platform.
Context {F : Type} {IFO : IFileOut F}.

(** X5. The setters of a thread's buffer can be called in any order, and
    before or after an append: tag, level and time switch end up the same,
    and so does the message. *)
Theorem modifiers_commute (s : CLog F) (tid : nat) (n1 n2 : Z)
    (T : string) (l : Z) (show : bool) (v : Value P) :
  SetTag tid n2 T (SetLogLevel tid n1 l s) = SetLogLevel tid n2 l (SetTag tid n1 T s)
  /\ SetTag tid n2 T (ShowTimestamp tid n1 show s) = ShowTimestamp tid n2 show (SetTag tid n1 T s)
  /\ SetLogLevel tid n2 l (ShowTimestamp tid n1 show s) =
       ShowTimestamp tid n2 show (SetLogLevel tid n1 l s)
  /\ shl P tid n2 v (SetTag tid n1 T s) = SetTag tid n2 T (shl P tid n1 v s)
  /\ shl P tid n2 v (SetLogLevel tid n1 l s) = SetLogLevel tid n2 l (shl P tid n1 v s)
  /\ shl P tid n2 v (ShowTimestamp tid n1 show s) = ShowTimestamp tid n2 show (shl P tid n1 v s).
Proof.
  destruct s as [o fm f ltf ld bs fmt lvl].
  unfold SetTag, SetLogLevel, ShowTimestamp, shl.
  cbn [m_Buffers set_Buffers m_Format output m_FormatMessage m_OutFile m_LogToFile
       m_LogDebug m_Level].
  rewrite !modify_insert, !subscript_insert, !insert_insert_eq.
  repeat split; reflexivity.
Qed.

(** X6. Which tagged messages a flush shows: one tagged ["debug"] only with
    debug logging enabled, one with any other tag whether or not it is
    enabled, the level permitting; setting another tag takes the debug mark
    off again. *)
Theorem tag_decides_debug_filter (s : CLog F) (tid : nat) (n1 n2 : Z) (T : string) (State : bool) :
  let b0 := (subscript n1 tid (m_Buffers s)).1 in
  let b1 := set_DebugMsg (String.eqb T "debug") (set_Tag T b0) in
  m_Buffers (SetTag tid n1 T s) !! tid = Some b1
  /\ output (Flush tid n2 (SetTag tid n1 T (EnableDebugLog State s))) =
       if (State || negb (String.eqb T "debug")) && (Level b0 <=? m_Level s)
       then output s ++ [m_FormatMessage s b1]
       else output s.
Proof.
  cbn zeta. split.
  - unfold SetTag. cbn [m_Buffers set_Buffers].
    rewrite !modify_insert, !subscript_insert, insert_insert_eq. apply lookup_insert_eq.
  - rewrite Flush_output. destruct s as [o fm f ltf ld bs fmt lvl].
    unfold SetTag, EnableDebugLog.
    cbn [m_Buffers set_Buffers set_LogDebug m_Format output m_FormatMessage m_OutFile
         m_LogToFile m_LogDebug m_Level].
    rewrite !modify_insert, !subscript_insert, insert_insert_eq.
    rewrite ?subscript_insert.
    unfold passes_filter.
    cbn [m_LogDebug m_Level output m_FormatMessage DebugMsg Level set_DebugMsg set_Tag].
    destruct State, (String.eqb T "debug"); reflexivity.
Qed.

(** X7. The level threshold: after [ShowLogLevel(n)] a message whose level
    was set to [l] is shown iff [l] is at most [n], both as [uint32_t]
    (debug switch permitting), and with [n = -1] every level is. *)
Theorem level_threshold (s : CLog F) (tid : nat) (n1 n2 : Z) (l n : Z) :
  let b0 := (subscript n1 tid (m_Buffers s)).1 in
  output (Flush tid n2 (SetLogLevel tid n1 l (ShowLogLevel n s))) =
    (if (m_LogDebug s || negb (DebugMsg b0)) && (to_uint32 l <=? to_uint32 n)
     then output s ++ [m_FormatMessage s (set_Level (to_uint32 l) b0)]
     else output s)
  /\ (to_uint32 l <=? to_uint32 (-1)) = true.
Proof.
  cbn zeta. split.
  - rewrite Flush_output. destruct s as [o fm f ltf ld bs fmt lvl].
    unfold SetLogLevel, ShowLogLevel.
    cbn [m_Buffers set_Buffers set_m_Level m_Format output m_FormatMessage m_OutFile
         m_LogToFile m_LogDebug m_Level].
    rewrite modify_insert, subscript_insert. unfold passes_filter.
    cbn [m_LogDebug m_Level output m_FormatMessage DebugMsg Level set_Level].
    destruct ld, (DebugMsg _); reflexivity.
  - apply Z.leb_le. unfold to_uint32.
    pose proof (Z.mod_pos_bound l (2 ^ 32) eq_refl) as H.
    change ((-1) mod 2 ^ 32) with (2 ^ 32 - 1). lia.
Qed.

(** X8. [lendl] puts a newline at the end of the message and flushes: with
    the default renderer the line handed to the sinks is the header, the
    message composed so far and the newline, and the buffer is gone. *)
Theorem lendl_line (s : CLog F) (tid : nat) (now : Z) :
  m_FormatMessage s = FormatMessage P ->
  passes_filter s (subscript now tid (m_Buffers s)).1 = true ->
  let b0 := (subscript now tid (m_Buffers s)).1 in
  output (lendl tid now s) =
    output s ++ [FormatMessage P (set_Message "" b0) +:+ (Message b0 +:+ String "010" "")]
  /\ m_Buffers (lendl tid now s) !! tid = None.
Proof.
  intros Hfm Hpass. cbn zeta. unfold lendl.
  split; [|rewrite Flush_Buffers; apply lookup_delete_eq].
  rewrite Flush_output.
  assert (Hb : (subscript now tid (m_Buffers (Put tid now "010" s))).1 =
               append_Message (String "010" "") (subscript now tid (m_Buffers s)).1).
  { unfold Put. cbn [m_Buffers set_Buffers]. rewrite modify_insert. apply subscript_insert. }
  rewrite Hb.
  change (passes_filter (Put tid now "010" s)
            (append_Message (String "010" "") (subscript now tid (m_Buffers s)).1))
    with (passes_filter s (subscript now tid (m_Buffers s)).1).
  rewrite Hpass. change (output (Put tid now "010" s)) with (output s).
  change (m_FormatMessage (Put tid now "010" s)) with (m_FormatMessage s).
  rewrite Hfm, FormatMessage_message. reflexivity.
Qed.

(** X9. [FlushAll] leaves nothing to flush: a second [FlushAll] changes
    nothing. *)
Theorem FlushAll_twice (s : CLog F) : FlushAll (FlushAll s) = FlushAll s.
Proof.
  unfold FlushAll at 1. rewrite FlushAll_Buffers, entries_empty. reflexivity.
Qed.

(** X10. The destructor hands every pending message that passes the filter
    to the output callback, and to the file when file logging is on, before
    it closes the file; it leaves no buffer and file logging off. *)
Theorem destructor_flushes_and_closes (s : CLog F) :
  let lines := Spec.passing s (entries (m_Buffers s)) in
  output (destroy s) = output s ++ lines
  /\ m_OutFile (destroy s) =
       CloseFile (if m_LogToFile s
                  then foldl (fun f msg => WriteToFile msg f) (m_OutFile s) lines
                  else m_OutFile s)
  /\ m_Buffers (destroy s) = ∅
  /\ m_LogToFile (destroy s) = false.
Proof.
  cbn zeta. unfold destroy, CloseLogFile.
  cbn [output m_OutFile m_Buffers m_LogToFile set_OutFile set_LogToFile].
  destruct (FlushAll_rounds (entries (m_Buffers s)) s) as (Ho & Hf & _).
  fold (FlushAll s) in Ho, Hf. rewrite Ho, Hf, FlushAll_Buffers. repeat split; reflexivity.
Qed.

(** X11. After [CloseLogFile] no flush writes to the file: [Flush] and
    [FlushAll] leave the closed sink as it is, and still call the output
    callback. *)
Theorem closed_log_file_is_not_written (s : CLog F) (tid : nat) (now : Z) :
  let buf := (subscript now tid (m_Buffers s)).1 in
  m_OutFile (Flush tid now (CloseLogFile s)) = CloseFile (m_OutFile s)
  /\ m_OutFile (FlushAll (CloseLogFile s)) = CloseFile (m_OutFile s)
  /\ output (Flush tid now (CloseLogFile s)) =
       (if passes_filter s buf then output s ++ [m_FormatMessage s buf] else output s)
  /\ output (FlushAll (CloseLogFile s)) = output s ++ Spec.passing s (entries (m_Buffers s)).
Proof.
  cbn zeta. rewrite Flush_OutFile, Flush_output.
  destruct (FlushAll_rounds (entries (m_Buffers (CloseLogFile s))) (CloseLogFile s))
    as (Ho & Hf & _).
  fold (FlushAll (CloseLogFile s)) in Ho, Hf. rewrite Ho, Hf.
  destruct s as [o fm f ltf ld bs fmt lvl]. unfold CloseLogFile, passes_filter, Spec.passing.
  cbn [m_Buffers m_LogToFile m_OutFile output m_FormatMessage m_LogDebug m_Level
       set_OutFile set_LogToFile].
  rewrite andb_false_r. repeat split; reflexivity.
Qed.

End Composition.

(** ** Logging to a file *)

(** X12. [LogToFile] closes the file in use before it opens the next:
    whatever state the stream of the default sink was in, open, closed or
    failed, a path that can be opened leaves it open, without error and
    empty, with file logging on. *)
Theorem LogToFile_reopens (P : Platform) (s : CLog DefaultFileOut) (Filename : string) :
  fs_can_open P Filename = true ->
  let r := LogToFile (IFO := DefaultFileOut_IFileOut P) Filename s in
  r.2 = None
  /\ m_LogToFile r.1 = true
  /\ m_Output (m_OutFile r.1) =
       {| LibC.is_open := true; LibC.failbit := false; LibC.written := [] |}
  /\ output r.1 = output s
  /\ m_Buffers r.1 = m_Buffers s.
Proof.
  intros Hopen. destruct s as [o fm [[opened failed w]] ltf ld bs fmt lvl].
  destruct opened; cbn; unfold LibC.ofstream_open; cbn; rewrite Hopen; repeat split; reflexivity.
Qed.

(** X13. After a [LogToFile] that could open the file, a flushed message
    that passes the filter is written to the file as it is handed to the
    output callback, the same rendered line. *)
Theorem file_receives_console_line (P : Platform) (s : CLog DefaultFileOut)
    (Filename : string) (tid : nat) (now : Z) :
  fs_can_open P Filename = true ->
  passes_filter s (subscript now tid (m_Buffers s)).1 = true ->
  let IFO := DefaultFileOut_IFileOut P in
  let s' := Flush tid now (LogToFile Filename s).1 in
  let line := m_FormatMessage s (subscript now tid (m_Buffers s)).1 in
  output s' = output s ++ [line]
  /\ LibC.written (m_Output (m_OutFile s')) = [line]
  /\ LibC.failbit (m_Output (m_OutFile s')) = false.
Proof.
  intros Hopen Hpass. cbn zeta. rewrite Flush_output, Flush_OutFile.
  destruct s as [o fm [[opened failed w]] ltf ld bs fmt lvl].
  unfold passes_filter in *. cbn [m_Buffers m_LogDebug m_Level] in Hpass.
  destruct opened; cbn; unfold LibC.ofstream_open; cbn; rewrite Hopen; cbn;
    unfold passes_filter; cbn; rewrite Hpass; cbn; repeat split; reflexivity.
Qed.

Lemma LogToFile_reopens_witness :
  let P := LP64.platform in
  let s := (LogToFile (IFO := DefaultFileOut_IFileOut P) "/nonexistent/a.log" (CLog_new P)).1 in
  fs_can_open P "Test.log" = true
  /\ LibC.failbit (m_Output (m_OutFile s)) = true
  /\ m_Output (m_OutFile (LogToFile (IFO := DefaultFileOut_IFileOut P) "Test.log" s).1) =
       {| LibC.is_open := true; LibC.failbit := false; LibC.written := [] |}.
Proof.
  cbn zeta. split; [reflexivity|]. split; [reflexivity|].
  exact (proj1 (proj2 (proj2 (LogToFile_reopens LP64.platform
    (LogToFile (IFO := DefaultFileOut_IFileOut LP64.platform) "/nonexistent/a.log"
       (CLog_new LP64.platform)).1 "Test.log" eq_refl)))).
Defined.

Lemma file_receives_console_line_witness :
  let P := LP64.platform in
  let IFO := DefaultFileOut_IFileOut P in
  let s := shl P 3 1589684699 (VString P "started") (CLog_new P) in
  (fs_can_open P "Test.log" = true
   /\ passes_filter s (subscript 1589684700 3%nat (m_Buffers s)).1 = true)
  /\ LibC.written (m_Output (m_OutFile (Flush 3 1589684700 (LogToFile "Test.log" s).1))) =
       ["[ 2020-05-17 03:04:59 ] started"].
Proof.
  cbn zeta. split; [split; reflexivity|].
  pose proof (file_receives_console_line LP64.platform
                (shl LP64.platform 3 1589684699
                   (VString LP64.platform "started") (CLog_new LP64.platform))
                "Test.log" 3%nat 1589684700 eq_refl eq_refl) as (_ & H & _).
  cbn zeta in H. rewrite H. vm_compute. reflexivity.
Defined.

(** A sink that throws: the exception leaves [LogToFile], the flag is off. *)
Lemma LogToFile_throwing_sink_witness :
  let P := LP64.platform in
  let IFO := CheckedFileOut_IFileOut P in
  let s := {| output := []; m_FormatMessage := FormatMessage P;
              m_OutFile := {| checked_stream := LibC.ofstream_new |};
              m_LogToFile := true; m_LogDebug := false; m_Buffers := ∅;
              m_Format := "d"%char; m_Level := to_uint32 (-1) |} in
  (LogToFile "/nonexistent/a.log" s).2 = Some (open_failure "/nonexistent/a.log")
  /\ m_LogToFile (LogToFile "/nonexistent/a.log" s).1 = false.
Proof.
  cbn zeta.
  exact (LogToFile_throwing_sink (IFO := CheckedFileOut_IFileOut LP64.platform)
           {| output := []; m_FormatMessage := FormatMessage LP64.platform;
              m_OutFile := {| checked_stream := LibC.ofstream_new |};
              m_LogToFile := true; m_LogDebug := false; m_Buffers := ∅;
              m_Format := "d"%char; m_Level := to_uint32 (-1) |}
           "/nonexistent/a.log" _ _ eq_refl).
Defined.

(** ** Witnesses *)

Lemma locking_methods_exclusive_witness :
  Locking.locks Locking.shl_signed = true
  /\ Locking.locks Locking.EnableDebugLog = true
  /\ existsb Locking.intrudes
       [(true, Locking.acquire, None);
        (true, Locking.wr Locking.mLogDebug, Some true);
        (true, Locking.release, Some true);
        (false, Locking.acquire, None);
        (false, Locking.rd Locking.mFormat, Some false);
        (false, Locking.wr Locking.mBuffers, Some false);
        (false, Locking.release, Some false)] = false.
Proof.
  split; [reflexivity|]. split; [reflexivity|].
  exact (locking_methods_exclusive Locking.shl_signed Locking.EnableDebugLog
           [true; true; true; false; false; false; false] _ eq_refl eq_refl eq_refl).
Defined.

Lemma composed_message_flushed_witness :
  let P := LP64.platform in
  let IFO := DefaultFileOut_IFileOut P in
  let cs := [(0, call_SetTag P "info"); (0, call_shl P (VString P "x = "));
             (0, call_SetNumFormat P "b"); (0, call_shl P (VUnsigned P 5))] in
  (forallb (composing P) cs.*2 = true /\ m_Buffers (CLog_new P) !! 1%nat = None)
  /\ Message (subscript 0 1%nat (m_Buffers (run P (by_thread P 1 cs) (CLog_new P)))).1 = "x = 101".
Proof.
  cbn zeta. split; [split; reflexivity|].
  pose proof (composed_message_flushed LP64.platform
                (IFO := DefaultFileOut_IFileOut LP64.platform) (CLog_new LP64.platform) 1%nat
                [(0, call_SetTag LP64.platform "info");
                 (0, call_shl LP64.platform (VString LP64.platform "x = "));
                 (0, call_SetNumFormat LP64.platform "b");
                 (0, call_shl LP64.platform (VUnsigned LP64.platform 5))] 0
                eq_refl eq_refl) as [H _].
  cbn zeta in H. rewrite H. vm_compute. reflexivity.
Defined.

Lemma threads_do_not_interleave_witness :
  let P := LP64.platform in
  let IFO := DefaultFileOut_IFileOut P in
  let evs := [(1%nat, 0, call_shl P (VString P "a")); (2%nat, 0, call_shl P (VString P "X"));
              (2%nat, 0, call_SetTag P "info"); (1%nat, 0, call_shl P (VSigned P 5));
              (2%nat, 0, call_Flush P); (1%nat, 0, call_Put P "!")] in
  (forallb (fun ev : nat * Z * Call P => one_critical_section P ev.2) evs = true
   /\ forallb (keeps P 1) evs = true)
  /\ message_of 1 (m_Buffers (run P evs (lbin (CLog_new P)))) = "a101!".
Proof.
  cbn zeta. split; [split; reflexivity|].
  rewrite (proj1 (threads_do_not_interleave LP64.platform
             (IFO := DefaultFileOut_IFileOut LP64.platform)
             [(1%nat, 0, call_shl LP64.platform (VString LP64.platform "a"));
              (2%nat, 0, call_shl LP64.platform (VString LP64.platform "X"));
              (2%nat, 0, call_SetTag LP64.platform "info");
              (1%nat, 0, call_shl LP64.platform (VSigned LP64.platform 5));
              (2%nat, 0, call_Flush LP64.platform);
              (1%nat, 0, call_Put LP64.platform "!")] (lbin (CLog_new LP64.platform)) 1%nat
             eq_refl eq_refl)).
  vm_compute. reflexivity.
Defined.

Lemma other_threads_keep_buffer_witness :
  let P := LP64.platform in
  let IFO := DefaultFileOut_IFileOut P in
  let s := SetTag 1 0 "error" (CLog_new P) in
  let evs := [(2%nat, 5, call_shl P (VString P "X")); (2%nat, 5, call_Flush P);
              (3%nat, 6, call_EnableDebugLog P true)] in
  forallb (fun ev : nat * Z * Call P => negb (is_FlushAll P ev.2) && negb (Nat.eqb ev.1.1 1)) evs
    = true
  /\ m_Buffers (run P evs s) !! 1%nat = Some (set_Tag "error" (Buffer_new 0)).
Proof.
  cbn zeta. split; [reflexivity|].
  rewrite (other_threads_keep_buffer LP64.platform
             (IFO := DefaultFileOut_IFileOut LP64.platform)
             [(2%nat, 5, call_shl LP64.platform (VString LP64.platform "X"));
              (2%nat, 5, call_Flush LP64.platform);
              (3%nat, 6, call_EnableDebugLog LP64.platform true)]
             (SetTag 1 0 "error"
                (CLog_new LP64.platform)) 1%nat eq_refl).
  reflexivity.
Defined.

Lemma buffer_time_is_creation_time_witness :
  let P := LP64.platform in
  let IFO := DefaultFileOut_IFileOut P in
  let evs := [(1%nat, 200, call_shl P (VString P "later")); (2%nat, 300, call_Flush P)] in
  (m_Buffers (CLog_new P) !! 1%nat = None
   /\ touches_buffer P (call_SetLogLevel P 2) = true
   /\ forallb (keeps P 1) evs = true)
  /\ exists b, m_Buffers (run P ((1%nat, 100, call_SetLogLevel P 2) :: evs) (CLog_new P)) !! 1%nat
               = Some b /\ Time b = 100.
Proof.
  cbn zeta. split; [repeat split; reflexivity|].
  exact (buffer_time_is_creation_time LP64.platform
           (IFO := DefaultFileOut_IFileOut LP64.platform)
           [(1%nat, 200, call_shl LP64.platform (VString LP64.platform "later"));
            (2%nat, 300, call_Flush LP64.platform)]
           (CLog_new LP64.platform) 1%nat 100 (call_SetLogLevel LP64.platform 2)
           eq_refl eq_refl eq_refl).
Defined.

Lemma lendl_line_witness :
  let P := LP64.platform in
  let IFO := DefaultFileOut_IFileOut P in
  let s := shl P 1 1589684699 (VString P "Test") (lerror 1 1589684699 (CLog_new P)) in
  (m_FormatMessage s = FormatMessage P
   /\ passes_filter s (subscript 1589684699 1%nat (m_Buffers s)).1 = true)
  /\ output (lendl 1 1589684699 s) =
       ["[ 2020-05-17 03:04:59 ] [ error ] Test" +:+ String "010" ""].
Proof.
  cbn zeta. split; [split; reflexivity|].
  pose proof (lendl_line LP64.platform (IFO := DefaultFileOut_IFileOut LP64.platform)
                (shl LP64.platform 1 1589684699
                   (VString LP64.platform "Test")
                   (lerror 1 1589684699
                      (CLog_new LP64.platform)))
                1%nat 1589684699 eq_refl eq_refl) as [H _].
  rewrite H. vm_compute. reflexivity.
Defined.

(** ** More about sinks and formats *)

Lemma write_lines (w lines : list string) :
  foldl (fun (f : DefaultFileOut) (msg : string) =>
           {| m_Output := LibC.ofstream_write msg (m_Output f) |})
        {| m_Output := {| LibC.is_open := true; LibC.failbit := false; LibC.written := w |} |}
        lines =
    {| m_Output := {| LibC.is_open := true; LibC.failbit := false;
                      LibC.written := w ++ lines |} |}.
Proof.
  revert w. induction lines as [|l lines IH]; intros w; cbn [foldl].
  - now rewrite app_nil_r.
  - unfold LibC.ofstream_write at 2. cbn [m_Output LibC.failbit LibC.is_open LibC.written].
    rewrite IH, <- app_assoc. reflexivity.
Qed.

(** X17. While file logging is on and the stream of the default sink is
    open and sound, [FlushAll] writes to the file the very lines it hands to
    the output callback, in the same order, and the stream stays sound. *)
Theorem file_mirrors_output (P : Platform) (s : CLog DefaultFileOut) :
  m_LogToFile s = true ->
  LibC.is_open (m_Output (m_OutFile s)) = true ->
  LibC.failbit (m_Output (m_OutFile s)) = false ->
  let s' := FlushAll (IFO := DefaultFileOut_IFileOut P) s in
  let lines := Spec.passing s (entries (m_Buffers s)) in
  output s' = output s ++ lines
  /\ LibC.written (m_Output (m_OutFile s')) = LibC.written (m_Output (m_OutFile s)) ++ lines
  /\ LibC.is_open (m_Output (m_OutFile s')) = true
  /\ LibC.failbit (m_Output (m_OutFile s')) = false.
Proof.
  intros Hflag Hopen Hgood. cbn zeta.
  destruct (FlushAll_rounds (IFO := DefaultFileOut_IFileOut P) (entries (m_Buffers s)) s)
    as (Ho & Hf & _).
  fold (FlushAll (IFO := DefaultFileOut_IFileOut P) s) in Ho, Hf. rewrite Ho, Hf, Hflag.
  destruct s as [o fm [[opened failed w]] ltf ld bs fmt lvl].
  cbn in Hopen, Hgood. subst opened failed.
  cbn [m_OutFile WriteToFile DefaultFileOut_IFileOut]. rewrite write_lines.
  repeat split; reflexivity.
Qed.

Lemma file_mirrors_output_witness :
  let P := LP64.platform in
  let IFO := DefaultFileOut_IFileOut P in
  let s := shl P 2 0 (VString P "two") (shl P 1 0 (VString P "one")
             (LogToFile "Test.log" (CLog_new P)).1) in
  (m_LogToFile s = true /\ LibC.is_open (m_Output (m_OutFile s)) = true
   /\ LibC.failbit (m_Output (m_OutFile s)) = false)
  /\ LibC.written (m_Output (m_OutFile (FlushAll s))) =
       ["[ 1970-01-01 00:00:00 ] one"; "[ 1970-01-01 00:00:00 ] two"].
Proof.
  cbn zeta. split; [repeat split; reflexivity|].
  pose proof (file_mirrors_output LP64.platform
                (shl LP64.platform 2 0 (VString LP64.platform "two")
                   (shl LP64.platform 1 0 (VString LP64.platform "one")
                      (LogToFile (IFO := DefaultFileOut_IFileOut LP64.platform) "Test.log"
                         (CLog_new LP64.platform)).1))
                eq_refl eq_refl eq_refl) as (_ & H & _).
  cbn zeta in H. rewrite H. vm_compute. reflexivity.
Defined.

Lemma to_long_to_ulong (P : Platform) (z : Z) :
  LibC.to_long P (LibC.to_ulong P z) = LibC.to_long P z.
Proof. unfold LibC.to_long. cbv zeta. now rewrite to_ulong_idem. Qed.

(** X18. Whether an integer is appended as a signed or as an unsigned value
    shows in decimal only: in every other number format the two overloads of
    [operator<<] insert the same text for the same bits. *)
Theorem signedness_shows_in_decimal_only (P : Platform) (fmt : ascii) (val : Z) :
  fmt <> "d"%char ->
  inserted_text P fmt (VSigned P val) = inserted_text P fmt (VUnsigned P val).
Proof.
  intros Hd. cbn [inserted_text]. unfold FormatIntegral_signed, FormatIntegral_unsigned.
  rewrite to_long_to_ulong. unfold FormatIntegral.
  replace (Ascii.eqb fmt "d") with false
    by (symmetry; apply Ascii.eqb_neq; exact Hd).
  reflexivity.
Qed.

Lemma signedness_shows_in_decimal_only_witness :
  let P := LP64.platform in
  "x"%char <> "d"%char
  /\ inserted_text P "x" (VSigned P (-1)) = inserted_text P "x" (VUnsigned P (2 ^ 64 - 1))
  /\ inserted_text P "d" (VSigned P (-1)) <> inserted_text P "d" (VUnsigned P (2 ^ 64 - 1)).
Proof.
  cbn zeta. split; [discriminate|]. split.
  - rewrite (signedness_shows_in_decimal_only LP64.platform "x" (-1)) by discriminate.
    vm_compute. reflexivity.
  - vm_compute. discriminate.
Defined.

Lemma passing_app {F : Type} (s : CLog F) (l1 l2 : list (nat * Buffer)) :
  Spec.passing s (l1 ++ l2) = Spec.passing s l1 ++ Spec.passing s l2.
Proof. unfold Spec.passing. now rewrite fmap_app, List.filter_app, fmap_app. Qed.

Lemma passing_cons {F : Type} (s : CLog F) (k : nat) (b : Buffer) (l : list (nat * Buffer)) :
  passes_filter s b = true ->
  Spec.passing s ((k, b) :: l) = m_FormatMessage s b :: Spec.passing s l.
Proof.
  intros Hb. rewrite passes_filter_rendered in Hb. unfold Spec.passing.
  rewrite fmap_cons. cbn [snd List.filter]. rewrite Hb. reflexivity.
Qed.

(** X19. [FlushAll] emits in ascending order of the thread identities: of
    two buffers of the map that pass the filter, the line of the thread with
    the lower identity is handed to the output callback first. *)
Theorem FlushAll_emits_in_thread_order (P : Platform) {F : Type} {IFO : IFileOut F}
    (s : CLog F) (k1 k2 : nat) (b1 b2 : Buffer) :
  m_Buffers s !! k1 = Some b1 ->
  m_Buffers s !! k2 = Some b2 ->
  (k1 < k2)%nat ->
  passes_filter s b1 = true ->
  passes_filter s b2 = true ->
  exists pre mid post : list string,
    output (FlushAll s) =
      output s ++ pre ++ [m_FormatMessage s b1] ++ mid ++ [m_FormatMessage s b2] ++ post.
Proof.
  intros H1 H2 Hlt Hp1 Hp2.
  destruct (FlushAll_rounds (entries (m_Buffers s)) s) as (Ho & _).
  fold (FlushAll s) in Ho. rewrite Ho. clear Ho.
  pose proof (entries_sorted (m_Buffers s)) as Hsorted.
  apply entries_elem_of in H1, H2.
  destruct (list_elem_of_split _ _ H1) as (l1 & l2 & Hsplit).
  rewrite Hsplit in H2, Hsorted |- *.
  apply elem_of_app in H2 as [H2|H2].
  - exfalso.
    assert (Hle : key_le (k2, b2) (k1, b1))
      by (eapply StronglySorted_app_1_elem_of; [exact Hsorted | exact H2 | left]).
    unfold key_le in Hle. cbn in Hle. lia.
  - apply elem_of_cons in H2 as [H2|H2]; [injection H2 as -> _; lia|].
    destruct (list_elem_of_split _ _ H2) as (l3 & l4 & ->).
    exists (Spec.passing s l1), (Spec.passing s l3), (Spec.passing s l4).
    rewrite passing_app, (passing_cons s k1 b1 _ Hp1), passing_app,
      (passing_cons s k2 b2 _ Hp2).
    reflexivity.
Qed.

Lemma FlushAll_emits_in_thread_order_witness :
  let P := LP64.platform in
  let IFO := DefaultFileOut_IFileOut P in
  let s := ShowTimestamp 2 0 false (ShowTimestamp 7 0 false
             (shl P 2 0 (VString P "second thread") (shl P 7 0 (VString P "seventh thread")
                (CLog_new P)))) in
  let b2 := set_ShowTime false (set_Message "second thread" (Buffer_new 0)) in
  let b7 := set_ShowTime false (set_Message "seventh thread" (Buffer_new 0)) in
  (m_Buffers s !! 2%nat = Some b2 /\ m_Buffers s !! 7%nat = Some b7 /\ (2 < 7)%nat
   /\ passes_filter s b2 = true /\ passes_filter s b7 = true)
  /\ output (FlushAll s) = ["second thread"; "seventh thread"]
  /\ exists pre mid post : list string,
       output (FlushAll s) = output s ++ pre ++ ["second thread"] ++ mid ++ ["seventh thread"] ++ post.
Proof.
  cbn zeta. split; [repeat split; try reflexivity; lia|]. split; [vm_compute; reflexivity|].
  exact (FlushAll_emits_in_thread_order LP64.platform
           (IFO := DefaultFileOut_IFileOut LP64.platform)
           (ShowTimestamp 2 0 false (ShowTimestamp 7 0 false
              (shl LP64.platform 2 0 (VString LP64.platform "second thread")
                 (shl LP64.platform 7 0 (VString LP64.platform "seventh thread")
                    (CLog_new LP64.platform)))))
           2%nat 7%nat
           (set_ShowTime false (set_Message "second thread" (Buffer_new 0)))
           (set_ShowTime false (set_Message "seventh thread" (Buffer_new 0)))
           eq_refl eq_refl (ltac:(lia)) eq_refl eq_refl).
Defined.
